(** * Orbit command: telemetry store, burn scheduler and propagation engine

    A shallow embedding of [orbit-command/app.py] (the Flask handler
    [send_command]) and [orbit-command/orbit_simulator.py] (the body of the
    [while True] loop).  The telemetry document is a Python [dict] loaded
    from JSON: it is a finite map from field names to Python values.  Python
    floats are IEEE 754 binary64 numbers, modelled by Rocq's primitive
    floats; Python integers are unbounded, modelled by [Z].  Exceptions are
    explicit: every operation that can raise returns a [result].  A command
    and an iteration of the simulator are each one step on the files they
    share.  [orbit-command/telemetry.py], a stand-alone writer of a jittered
    altitude, takes no part in the burn and propagation logic; it is
    modelled apart, in [Telemetry]. *)

From Stdlib Require Import ZArith Floats Lia.
From stdpp Require Import gmap strings pretty list.

Set Warnings "-inexact-float".

(** ** Python values and exceptions *)

(** The JSON values the telemetry document and a command request hold:
    [null], integers, floats and strings (arrays, objects and booleans do
    not occur in the field set of the document and are left out). *)
Inductive pyval : Type :=
  | PNone
  | PInt (z : Z)
  | PFloat (f : float)
  | PStr (s : string).

Inductive exn : Type :=
  | KeyError
  | TypeError
  | ValueError
  | ZeroDivisionError
  | OverflowError
  | OSError.

Inductive result (A : Type) : Type :=
  | Ok (a : A)
  | Raise (e : exn).
Arguments Ok {A} a.
Arguments Raise {A} e.

#[global] Instance result_ret : MRet result := λ A a, Ok a.
#[global] Instance result_bind : MBind result :=
  λ A B k m, match m with Ok a => k a | Raise e => Raise e end.

(** A telemetry document: the [dict] that [json.load] returns. *)
Abbreviation store := (gmap string pyval).

(** [d[k]]: raises [KeyError] when the key is missing. *)
Definition getitem (d : store) (k : string) : result pyval :=
  match d !! k with
  | Some v => Ok v
  | None => Raise KeyError
  end.

(** [d.get(k, dflt)]. *)
Definition dict_get (d : store) (k : string) (dflt : pyval) : pyval :=
  default dflt (d !! k).

(** ** The Python runtime and the C library

    Functions of the interpreter and of libm that the two programs call and
    that have no closed form in terms of the IEEE basic operations.  They are
    parameters of the model; every theorem holds for all of them, and the
    examples run on [ref_runtime] below. *)
Record runtime : Type := {
  (** [math.hypot(x, y)] on two floats (it may raise on overflow in old
      interpreters). *)
  math_hypot : float → float → result float;
  (** C [pow(x, y)], called by [x ** y] on finite nonzero [x]. *)
  libm_pow : float → float → float;
  (** [round(x, ndigits)] on a float. *)
  builtin_round : float → Z → float;
  (** [str(x)] of a float, as an f-string prints it. *)
  float_str : float → string;
  (** [float(s)] and [int(s)] on a string; [None] is [ValueError]. *)
  float_of_str : string → option float;
  int_of_str : string → option Z
}.

(** ** Float helpers *)

(** Conversion of a Python [int] to a float: correctly rounded (ties to
    even), [OverflowError] when the integer is too large. *)
Definition float_of_int (z : Z) : result float :=
  let f := SF2Prim (binary_normalize prec emax z 0 false) in
  if is_infinity f then Raise OverflowError else Ok f.

(** The implicit coercion of a number to a float in mixed arithmetic and
    in the calls of the [math] module. *)
Definition as_float (v : pyval) : result float :=
  match v with
  | PFloat f => Ok f
  | PInt z => float_of_int z
  | PNone | PStr _ => Raise TypeError
  end.

(** C [fmod(x, y)]: the exact remainder [x - n*y], [n] being [x/y] truncated
    towards zero; it has the sign of [x] and is always representable. *)
Definition fmod (x y : float) : float :=
  match Prim2SF x, Prim2SF y with
  | S754_nan, _ | _, S754_nan => nan
  | S754_infinity _, _ => nan
  | _, S754_zero _ => nan
  | S754_zero _, _ => x
  | S754_finite _ _ _, S754_infinity _ => x
  | S754_finite sx mx ex, S754_finite _ my ey =>
      let e := Z.min ex ey in
      let r := ((Z.pos mx * 2 ^ (ex - e)) mod (Z.pos my * 2 ^ (ey - e)))%Z in
      SF2Prim (binary_normalize prec emax (cond_Zopp sx r) e sx)
  end.

(** [float.__mod__] (CPython's [float_rem]): [fmod], then the remainder is
    given the sign of the divisor. *)
Definition float_rem (vx wx : float) : result float :=
  if (wx =? 0)%float then Raise ZeroDivisionError
  else
    let m := fmod vx wx in
    if (m =? 0)%float then Ok (if (wx <? 0)%float then neg_zero else zero)
    else if xorb (wx <? 0)%float (m <? 0)%float then Ok (m + wx)%float
    else Ok m.

(** [float.__truediv__]: division by a zero raises. *)
Definition float_div (x y : float) : result float :=
  if (y =? 0)%float then Raise ZeroDivisionError else Ok (x / y)%float.

(** [x ** 2] on a float (CPython's [float_pow] with exponent [2.0]): the
    special values are answered without calling [pow]; an infinite result
    of [pow] is [OverflowError], an underflow to zero is returned. *)
Definition float_sq (rt : runtime) (x : float) : result float :=
  if is_nan x then Ok x
  else if is_infinity x then Ok (abs x)
  else if (x =? 0)%float then Ok 0%float
  else if (abs x =? 1)%float then Ok 1%float
  else
    let r := libm_pow rt (abs x) 2 in
    if is_infinity r then Raise OverflowError else Ok r.

(** ** Python operators on values, as the simulator uses them *)

(** [a + b]. *)
Definition py_add (a b : pyval) : result pyval :=
  match a, b with
  | PInt x, PInt y => Ok (PInt (x + y))
  | PStr x, PStr y => Ok (PStr (x +:+ y))
  | PInt _, PFloat _ | PFloat _, PInt _ | PFloat _, PFloat _ =>
      x ← as_float a; y ← as_float b; Ok (PFloat (x + y))
  | _, _ => Raise TypeError
  end.

(** [a - 1]. *)
Definition py_sub1 (a : pyval) : result pyval :=
  match a with
  | PInt x => Ok (PInt (x - 1))
  | PFloat x => Ok (PFloat (x - 1))
  | PNone | PStr _ => Raise TypeError
  end.

(** [a > 0]. *)
Definition py_gt0 (a : pyval) : result bool :=
  match a with
  | PInt x => Ok (0 <? x)%Z
  | PFloat x => Ok (0 <? x)%float
  | PNone | PStr _ => Raise TypeError
  end.

(** [a <= 0]. *)
Definition py_le0 (a : pyval) : result bool :=
  match a with
  | PInt x => Ok (x <=? 0)%Z
  | PFloat x => Ok (x <=? 0)%float
  | PNone | PStr _ => Raise TypeError
  end.

(** [str(a)] inside an f-string. *)
Definition py_str (rt : runtime) (a : pyval) : string :=
  match a with
  | PNone => "None"
  | PInt x => pretty x
  | PFloat x => float_str rt x
  | PStr s => s
  end.

(** The status line of an active burn, [f"Burning: {n}s remaining"]. *)
Definition burning_msg (n : string) : string :=
  "Burning: " +:+ n +:+ "s remaining".

(** ** Constants of both programs *)

Definition GM : float := 398600.4418%float.
Definition EARTH_R : Z := 6371.
Definition math_pi : float := 3.141592653589793%float.
Definition MAX_DUR : Z := 60.

(** ** The propagation engine ([orbit_simulator.py], body of the loop) *)

Module Sim.

(** Lines 20-29, "Apply burn if active". *)
Definition burn_integration (rt : runtime) (tm : store) : result store :=
  active ← py_gt0 (dict_get tm "burn_remaining" (PInt 0));
  if active : bool then
    vx ← getitem tm "vx";
    rate_x ← getitem tm "burn_rate_x";
    vx' ← py_add vx rate_x;
    let tm := <["vx" := vx']> tm in
    vy ← getitem tm "vy";
    rate_y ← getitem tm "burn_rate_y";
    vy' ← py_add vy rate_y;
    let tm := <["vy" := vy']> tm in
    remaining ← getitem tm "burn_remaining";
    remaining' ← py_sub1 remaining;
    let tm := <["burn_remaining" := remaining']> tm in
    let tm := <["status" := PStr (burning_msg (py_str rt remaining'))]> tm in
    exhausted ← py_le0 remaining';
    if exhausted : bool then
      let tm := delete "burn_rate_x" tm in
      let tm := delete "burn_rate_y" tm in
      let tm := delete "burn_remaining" tm in
      Ok (<["status" := PStr "Stable"]> tm)
    else Ok tm
  else Ok tm.

(** Line 32, [speed = math.hypot(tm["vx"], tm["vy"])]. *)
Definition speed_of (rt : runtime) (tm : store) : result float :=
  vx ← getitem tm "vx";
  vy ← getitem tm "vy";
  x ← as_float vx;
  y ← as_float vy;
  math_hypot rt x y.

(** Lines 33-35, "Orbital dynamics": radius and altitude from the speed. *)
Definition orbital_dynamics (rt : runtime) (speed : float) (tm : store)
  : result store :=
  if (0 <? speed)%float then
    sq ← float_sq rt speed;
    radius ← float_div GM sq;
    let tm := <["radius" := PFloat radius]> tm in
    earth_r ← float_of_int EARTH_R;
    Ok (<["altitude" := PFloat (radius - earth_r)]> tm)
  else Ok tm.

(** Lines 38-39, "Angular motion". *)
Definition angular_motion (speed : float) (tm : store) : result store :=
  radius ← getitem tm "radius";
  r ← as_float radius;
  omega ← float_div speed r;
  let dtheta := (omega * (180 / math_pi))%float in
  angle ← as_float (dict_get tm "angle" (PInt 0));
  angle' ← float_rem (angle + dtheta) 360;
  Ok (<["angle" := PFloat angle']> tm).

(** One tick on the telemetry document: lines 20-39. *)
Definition propagate (rt : runtime) (tm : store) : result store :=
  tm ← burn_integration rt tm;
  speed ← speed_of rt tm;
  tm ← orbital_dynamics rt speed tm;
  angular_motion speed tm.

(** [n] ticks in a row; the first exception stops the loop. *)
Fixpoint ticks (rt : runtime) (n : nat) (tm : store) : result store :=
  match n with
  | O => Ok tm
  | S n' => tm' ← propagate rt tm; ticks rt n' tm'
  end.

(** An entry of the angle feed, [{"timestamp": ..., "angle": ...}]. *)
Record feed_entry : Type := FeedEntry {
  fe_timestamp : Z;
  fe_angle : pyval
}.

(** [round(x, 4)]: an [int] is returned as it is. *)
Definition py_round4 (rt : runtime) (v : pyval) : result pyval :=
  match v with
  | PInt z => Ok (PInt z)
  | PFloat f => Ok (PFloat (builtin_round rt f 4))
  | PNone | PStr _ => Raise TypeError
  end.

(** [l[-1000:]]. *)
Definition last_1000 {A : Type} (l : list A) : list A :=
  drop (length l - 1000) l.

(** Lines 48-53: append a sample and keep the last 1000 entries. *)
Definition feed_append (angle_log : list feed_entry) (e : feed_entry)
  : list feed_entry :=
  last_1000 (angle_log ++ [e]).

(** Line 67, the [print] with [:.2f] and [:.1f] fields: each field must be
    present and a number.  The format [f] converts an [int] to a float, and
    raises [OverflowError] when it is too large. *)
Definition report_field (tm : store) (k : string) : result () :=
  v ← getitem tm k;
  match v with
  | PFloat _ => Ok ()
  | PInt z => float_of_int z;; Ok ()
  | PNone => Raise TypeError
  | PStr _ => Raise ValueError
  end.

Definition report (tm : store) : result () :=
  report_field tm "angle";;
  report_field tm "vx";;
  report_field tm "vy";;
  report_field tm "altitude".

End Sim.

(** ** The files both programs share *)

(** A line of [command_log.txt]: timestamp, dvx, dvy and duration. *)
Record audit_record : Type := AuditRecord {
  ar_time : string;
  ar_dvx : float;
  ar_dvy : float;
  ar_dur : Z
}.

(** The state of [telemetry_data.json]: it holds a JSON object; or it
    cannot be opened, and [open] raises an [OSError]; or it opens on a text
    that is not JSON, and [json.load] raises [json.JSONDecodeError], which
    is a [ValueError]. *)
Inductive telemetry_state : Type :=
  | Document (tm : store)
  | Unopenable
  | Unparsable.

(** How a write of [angle_feed.json] ends (lines 56-58 of the simulator):
    the list is dumped; or [open] raises and the file is not touched; or
    [open] succeeds, which empties the file, and the dump or the closing of
    the file raises, which leaves a prefix of the text, not a JSON value. *)
Inductive feed_write_outcome : Type :=
  | FeedWritten
  | FeedOpenFails
  | FeedDumpFails.

(** [angle_feed] is [None] when [angle_feed.json] cannot be opened or
    parsed.  [log_appendable] says whether the log can be opened for
    appending, [feed_write] how the writes of the feed end.  The telemetry
    file is taken to be writable. *)
Record world : Type := World {
  telemetry : telemetry_state;
  command_log : list audit_record;
  log_appendable : bool;
  angle_feed : option (list Sim.feed_entry);
  feed_write : feed_write_outcome
}.

(** What [json.load] returns on the telemetry file, [None] when the file
    cannot be opened or parsed. *)
Definition telemetry_file (w : world) : option store :=
  match telemetry w with
  | Document tm => Some tm
  | Unopenable | Unparsable => None
  end.

(** The exception of a read of the telemetry file that fails. *)
Definition read_error (w : world) : exn :=
  match telemetry w with
  | Unparsable => ValueError
  | Document _ | Unopenable => OSError
  end.

(** The write of the feed goes through. *)
Definition feed_writable (w : world) : bool :=
  match feed_write w with
  | FeedWritten => true
  | FeedOpenFails | FeedDumpFails => false
  end.

Definition set_telemetry (tm : store) (w : world) : world :=
  World (Document tm) (command_log w) (log_appendable w) (angle_feed w)
        (feed_write w).

Definition set_feed (l : list Sim.feed_entry) (w : world) : world :=
  World (telemetry w) (command_log w) (log_appendable w) (Some l)
        (feed_write w).

(** The feed after a dump that failed: a file that does not parse. *)
Definition lose_feed (w : world) : world :=
  World (telemetry w) (command_log w) (log_appendable w) None
        (feed_write w).

Definition set_feed_write (o : feed_write_outcome) (w : world) : world :=
  World (telemetry w) (command_log w) (log_appendable w) (angle_feed w) o.

Definition append_log (r : audit_record) (w : world) : world :=
  World (telemetry w) (command_log w ++ [r]) (log_appendable w)
        (angle_feed w) (feed_write w).

(** Lines 56-61: the write of the feed, whose failure is caught. *)
Definition write_feed (angle_log : list Sim.feed_entry) (w : world) : world :=
  match feed_write w with
  | FeedWritten => set_feed angle_log w
  | FeedOpenFails => w
  | FeedDumpFails => lose_feed w
  end.

(** One iteration of the simulator loop (lines 14-68) at clock [now_ms]
    ([int(time.time() * 1000)]).  It returns the files as the iteration
    leaves them and the exception that ends the loop, if any. *)
Definition sim_iteration (rt : runtime) (now_ms : Z) (w : world)
  : world * option exn :=
  match telemetry_file w with
  | None => (w, Some (read_error w))
  | Some tm =>
      match Sim.propagate rt tm with
      | Raise e => (w, Some e)
      | Ok tm =>
          let angle_log := default [] (angle_feed w) in
          match Sim.py_round4 rt (dict_get tm "angle" (PInt 0)) with
          | Raise e => (w, Some e)
          | Ok rounded =>
              let angle_log :=
                Sim.feed_append angle_log (Sim.FeedEntry now_ms rounded) in
              let w := write_feed angle_log w in
              let w := set_telemetry tm w in
              match Sim.report tm with
              | Raise e => (w, Some e)
              | Ok _ => (w, None)
              end
          end
      end
  end.

(** The loop over a list of clock readings, one per iteration. *)
Fixpoint sim_loop (rt : runtime) (clock : list Z) (w : world)
  : world * option exn :=
  match clock with
  | [] => (w, None)
  | now_ms :: clock' =>
      match sim_iteration rt now_ms w with
      | (w', None) => sim_loop rt clock' w'
      | stopped => stopped
      end
  end.

(** ** The burn scheduler ([app.py]) *)

Module App.

(** The document written when [telemetry_data.json] does not exist
    (lines 11-21). *)
Definition initial : store :=
  <["altitude" := PInt (EARTH_R + 500 - EARTH_R)]>
  (<["status" := PStr "Idle"]>
  (<["angle" := PFloat 0]>
  (<["radius" := PInt (EARTH_R + 500)]>
  (<["vy" := PFloat 0]>
  (<["vx" := PFloat 7.5]> ∅))))).

(** [int(x)] on a float: truncation towards zero. *)
Definition int_of_float (f : float) : result Z :=
  match Prim2SF f with
  | S754_nan => Raise ValueError
  | S754_infinity _ => Raise OverflowError
  | S754_zero _ => Ok 0%Z
  | S754_finite s m e => Ok (cond_Zopp s (Z.shiftl (Z.pos m) e))
  end.

(** [float(x)]. *)
Definition py_float (rt : runtime) (v : pyval) : result float :=
  match v with
  | PFloat f => Ok f
  | PInt z => float_of_int z
  | PStr s =>
      match float_of_str rt s with
      | Some f => Ok f
      | None => Raise ValueError
      end
  | PNone => Raise TypeError
  end.

(** [int(x)]. *)
Definition py_int (rt : runtime) (v : pyval) : result Z :=
  match v with
  | PInt z => Ok z
  | PFloat f => int_of_float f
  | PStr s =>
      match int_of_str rt s with
      | Some z => Ok z
      | None => Raise ValueError
      end
  | PNone => Raise TypeError
  end.

(** Lines 31-33, the body of the [try]. *)
Definition parse_command (rt : runtime) (data : store)
  : result (float * float * Z) :=
  dvx ← py_float rt (dict_get data "dvx" (PInt 0));
  dvy ← py_float rt (dict_get data "dvy" (PInt 0));
  duration ← py_int rt (dict_get data "duration" (PInt 0));
  Ok (dvx, dvy, duration).

(** What the caller receives: a JSON body [status] (and [telemetry] on
    success) with its HTTP status code, or the exception that escaped the
    handler, which the framework answers with status 500. *)
Inductive response : Type :=
  | Json (code : Z) (status : string) (telemetry : option store)
  | Unhandled (e : exn).

Definition invalid_input : response :=
  Json 400 "ERROR: Invalid input" None.
Definition invalid_duration : response :=
  Json 400 ("ERROR: Duration must be 1–" +:+ pretty MAX_DUR +:+ " s") None.
Definition store_unavailable : response :=
  Json 500 "ERROR: Could not read telemetry" None.

(** Lines 50-53, "Schedule burn".  [duration] is not zero here. *)
Definition schedule_burn (dvx dvy : float) (duration : Z) (tm : store)
  : result store :=
  d ← float_of_int duration;
  rate_x ← float_div dvx d;
  let tm := <["burn_rate_x" := PFloat rate_x]> tm in
  rate_y ← float_div dvy d;
  let tm := <["burn_rate_y" := PFloat rate_y]> tm in
  let tm := <["burn_remaining" := PInt duration]> tm in
  Ok (<["status" := PStr (burning_msg (pretty duration))]> tm).

(** The handler of [POST /send-command] at wall-clock time [now]
    ([datetime.now().isoformat()]). *)
Definition send_command (rt : runtime) (now : string) (data : store)
    (w : world) : response * world :=
  match parse_command rt data with
  | Raise TypeError | Raise ValueError => (invalid_input, w)
  | Raise e => (Unhandled e, w)
  | Ok (dvx, dvy, duration) =>
      if ((duration <? 1) || (MAX_DUR <? duration))%Z then
        (invalid_duration, w)
      else
        match telemetry_file w with
        | None => (store_unavailable, w)
        | Some tm =>
            match schedule_burn dvx dvy duration tm with
            | Raise e => (Unhandled e, w)
            | Ok tm =>
                let w := set_telemetry tm w in
                if log_appendable w then
                  (Json 200 "Burn scheduled" (Some tm),
                   append_log (AuditRecord now dvx dvy duration) w)
                else (Unhandled OSError, w)
            end
        end
  end.

(** [GET /get-telemetry]. *)
Definition get_telemetry (w : world) : response :=
  match telemetry_file w with
  | Some tm => Json 200 "" (Some tm)
  | None => Unhandled (read_error w)
  end.

End App.

(** ** A reference runtime

    It agrees with CPython and libm wherever the result is exact: the
    square of a float by one correctly rounded multiplication, the hypotenuse
    of a vector on an axis by its absolute value.  The string conversions
    are not needed by any example. *)
Definition ref_hypot (x y : float) : result float :=
  if (y =? 0)%float then Ok (abs x)
  else if (x =? 0)%float then Ok (abs y)
  else Ok (sqrt (x * x + y * y)).

(** [round(x, ndigits)] for [ndigits >= 0]: the decimal nearest to the exact
    value of [x] (ties to even), then the float nearest to that decimal. *)
Definition ref_round (x : float) (ndigits : Z) : float :=
  match Prim2SF x with
  | S754_finite s m e =>
      let num := (Z.pos m * 10 ^ ndigits * 2 ^ Z.max e 0)%Z in
      let den := (2 ^ Z.max (- e) 0)%Z in
      let q := (num / den)%Z in
      let r := (num mod den)%Z in
      let n :=
        if (den <? 2 * r)%Z || ((den =? 2 * r)%Z && Z.odd q) then (q + 1)%Z
        else q in
      if (n <? 2 ^ 53)%Z then
        let y := (SF2Prim (binary_normalize prec emax n 0 false)
                  / SF2Prim (binary_normalize prec emax (10 ^ ndigits) 0 false))%float in
        if s then (- y)%float else y
      else x
  | _ => x
  end.

Definition ref_runtime : runtime := {|
  math_hypot := ref_hypot;
  libm_pow := λ x y, if (y =? 2)%float then (x * x)%float else nan;
  builtin_round := ref_round;
  float_str := λ _, "";
  float_of_str := λ _, None;
  int_of_str := λ _, None
|}.

(** ** Predicates of the statements *)

(** A duration converts to a nonzero float that divides zero to zero. *)
Definition duration_float_ok (d : Z) : bool :=
  match float_of_int d with
  | Ok f => negb (f =? 0)%float && Leibniz.eqb (0 / f)%float 0%float
  | Raise _ => false
  end.

(** A command request with the three fields. *)
Definition request (dvx dvy duration : pyval) : store :=
  <["dvx" := dvx]> (<["dvy" := dvy]> (<["duration" := duration]> ∅)).

(** The files at start-up: the bootstrap document, no log, no feed. *)
Definition boot : world :=
  World (Document App.initial) [] true None FeedWritten.

(** The same files with a command log that cannot be opened. *)
Definition boot_log_locked : world :=
  World (Document App.initial) [] false None FeedWritten.

(** The document a scheduled burn leaves (lines 50-53 of [app.py]). *)
Definition scheduled (rate_x rate_y : float) (duration : Z) (tm : store)
  : store :=
  <["status" := PStr (burning_msg (pretty duration))]>
  (<["burn_remaining" := PInt duration]>
  (<["burn_rate_y" := PFloat rate_y]>
  (<["burn_rate_x" := PFloat rate_x]> tm))).

(** The document after the first tick on the bootstrap document, on the
    reference runtime. *)
Definition first_tick : store :=
  <["angle" := PFloat 0.0606413200972062]>
  (<["altitude" := PFloat 715.23007644444351]>
  (<["radius" := PFloat 7086.2300764444435]> App.initial)).

(** The status of a burn with [k] seconds left is stored by one of the
    first [N] ticks from [tm]. *)
Definition burning_observed (rt : runtime) (tm : store) (N : nat) (k : Z)
  : Prop :=
  ∃ j tmj, 1 ≤ j ≤ N ∧ Sim.ticks rt j tm = Ok tmj ∧
           tmj !! "status" = Some (PStr (burning_msg (pretty k))).

(** The document of a burn of one second scheduled on the bootstrap
    document. *)
Definition one_second_burn : store := scheduled 1 0 1 App.initial.

(** The burn of the example of the specification, [dvx = 1.0], [dvy = 0],
    [duration = 10], scheduled on the bootstrap document. *)
Definition ten_second_burn : store := scheduled (1 / 10) (0 / 10) 10 App.initial.

(** The status is the "Burning" variant. *)
Definition is_burning (status : option pyval) : Prop :=
  ∃ n : Z, status = Some (PStr (burning_msg (pretty n))).

(** The presence invariant of the burn fields. *)
Definition burn_fields_agree (tm : store) : Prop :=
  (is_Some (tm !! "burn_remaining") ↔
   is_Some (tm !! "burn_rate_x") ∧ is_Some (tm !! "burn_rate_y")) ∧
  (is_Some (tm !! "burn_remaining") ↔ is_burning (tm !! "status")).



(** The two shapes of a document: no burn, or a burn with a positive
    integer countdown that the status shows. *)
Definition burn_inv (tm : store) : Prop :=
  (tm !! "burn_remaining" = None ∧ tm !! "burn_rate_x" = None ∧
   tm !! "burn_rate_y" = None ∧
   (tm !! "status" = Some (PStr "Idle") ∨
    tm !! "status" = Some (PStr "Stable"))) ∨
  (∃ (n : Z) (rate_x rate_y : float),
     (1 ≤ n)%Z ∧
     tm !! "burn_remaining" = Some (PInt n) ∧
     tm !! "burn_rate_x" = Some (PFloat rate_x) ∧
     tm !! "burn_rate_y" = Some (PFloat rate_y) ∧
     tm !! "status" = Some (PStr (burning_msg (pretty n)))).


(** When a tick that has computed [speed] from the document [tm1] left by
    burn integration divides by zero: with [speed > 0], when the square of
    the speed or the radius computed from it is zero; otherwise, when the
    stored radius is zero. *)
Definition divides_by_zero (rt : runtime) (tm1 : store) (speed : float)
  : Prop :=
  if (0 <? speed)%float then
    ∃ sq, float_sq rt speed = Ok sq ∧
          ((sq =? 0)%float = true ∨ (GM / sq =? 0)%float = true)
  else
    ∃ v r, tm1 !! "radius" = Some v ∧ as_float v = Ok r ∧
           (r =? 0)%float = true.

(** The bootstrap document after a one-second burn that cancels [vx] and
    leaves a very small [vy] is scheduled on it. *)
Definition stalling_burn : store := scheduled (-7.5) 1e-200 1 App.initial.

(** ** Evaluation helpers for the examples *)

(** The field [k] of the document a computation returns. *)
Definition peek (r : result store) (k : string) : result (option pyval) :=
  tm ← r; Ok (tm !! k).

Definition is_ok {A : Type} (r : result A) : bool :=
  match r with Ok _ => true | Raise _ => false end.

(** The value of a computation, [d] if it raised. *)
Definition value_or {A : Type} (d : A) (r : result A) : A :=
  match r with Ok a => a | Raise _ => d end.

(** The bootstrap document with a very small velocity. *)
Definition crawling : store := <["vx" := PFloat 1e-200]> App.initial.

(** ** Classes of binary64 numbers *)

(** A zero or a positive finite number. *)
Definition is_nonneg_finite (x : spec_float) : bool :=
  match x with
  | S754_zero false | S754_finite false _ _ => true
  | _ => false
  end.

(** A finite number or an infinity with sign [sx]: not a zero, not NaN. *)
Definition is_nonzero_signed (sx : bool) (x : spec_float) : bool :=
  match x with
  | S754_finite s _ _ | S754_infinity s => Bool.eqb s sx
  | _ => false
  end.

(** A zero, or a positive finite number whose exponent is at most -44:
    its value is below 2^9 = 512. *)
Definition below_512 (x : spec_float) : bool :=
  match x with
  | S754_zero _ => true
  | S754_finite false _ e => (e <=? -44)%Z
  | _ => false
  end.

(** [0 <= a < 360]. *)
Definition angle_in_range (a : float) : bool :=
  (0 <=? a)%float && (a <? 360)%float.

(** The angle step of the bootstrap orbit, [vx = 7.5] and [vy = 0]: the
    squared speed is 56.25. *)
Definition cruise_dtheta : float :=
  (7.5 / (GM / 56.25) * (180 / math_pi))%float.

(** A document on the bootstrap orbit: the bootstrap velocity, no burn,
    and an angle in range. *)
Definition cruising (tm : store) : Prop :=
  tm !! "vx" = Some (PFloat 7.5) ∧ tm !! "vy" = Some (PFloat 0) ∧
  tm !! "burn_remaining" = None ∧
  ∃ a, tm !! "angle" = Some (PFloat a) ∧ angle_in_range a = true.

(** ** The stand-alone telemetry writer ([telemetry.py]) *)

Module Telemetry.

(** The dictionary the script starts from (lines 5-10).  It lives in the
    memory of the script: the file is written, never read. *)
Definition initial : store :=
  <["status" := PStr "Idle"]>
  (<["altitude" := PInt 500]>
  (<["vy" := PFloat 0]>
  (<["vx" := PFloat 7.5]> ∅))).

(** One iteration of the loop (lines 13-17): [jitter] is the value that
    [uniform(-0.01, 0.01)] returns.  The result is the dictionary in memory
    and the files. *)
Definition iteration (jitter : float) (telemetry : store) (w : world)
  : result (store * world) :=
  altitude ← getitem telemetry "altitude";
  altitude' ← py_add altitude (PFloat jitter);
  let telemetry := <["altitude" := altitude']> telemetry in
  let telemetry := <["status" := PStr "Stable"]> telemetry in
  Ok (telemetry, set_telemetry telemetry w).

(** The loop over the values drawn, one per iteration. *)
Fixpoint loop (jitters : list float) (telemetry : store) (w : world)
  : result (store * world) :=
  match jitters with
  | [] => Ok (telemetry, w)
  | jitter :: jitters' =>
      '(telemetry', w') ← iteration jitter telemetry w;
      loop jitters' telemetry' w'
  end.

End Telemetry.

(** ** Further predicates *)

(** The acknowledgment of an accepted command. *)
Definition is_ack (r : App.response) : bool :=
  match r with
  | App.Json 200 "Burn scheduled" (Some _) => true
  | _ => false
  end.

(** An infinity or NaN. *)
Definition is_inf_or_nan (x : spec_float) : bool :=
  match x with
  | S754_infinity _ | S754_nan => true
  | _ => false
  end.

(** A field that the format [f] prints: a float, or an integer that
    converts to a float. *)
Definition formats_as_float (v : option pyval) : bool :=
  match v with
  | Some (PFloat _) => true
  | Some (PInt z) => is_ok (float_of_int z)
  | _ => false
  end.

(** The bootstrap document at rest, with an altitude too large for a
    float. *)
Definition stranded : store :=
  <["altitude" := PInt (10 ^ 400)]> (<["vx" := PFloat 0]> App.initial).

(** The bootstrap document with a velocity of 1e150 km/s. *)
Definition racing : store := <["vx" := PFloat 1e150]> App.initial.

(** The states of the telemetry file when the stand-alone writer runs
    beside the command handler and the simulator: the writer overwrites the
    file with its dictionary, whose burn fields are absent and whose status
    is one of its two. *)
Inductive reachable_all (rt : runtime) : world → Prop :=
  | reach_all_boot w :
      telemetry_file w = Some App.initial → reachable_all rt w
  | reach_all_command now data w :
      reachable_all rt w →
      reachable_all rt (App.send_command rt now data w).2
  | reach_all_tick now_ms w :
      reachable_all rt w → reachable_all rt (sim_iteration rt now_ms w).1
  | reach_all_writer jitters w r :
      reachable_all rt w →
      Telemetry.loop jitters Telemetry.initial w = Ok r →
      reachable_all rt r.2.

(** * Properties *)

(** ** Durations accepted by the scheduler convert exactly *)

Lemma durations_checked :
  forallb duration_float_ok (seqZ 1 60) = true.
Proof. vm_compute. reflexivity. Qed.

Lemma duration_float (d : Z) :
  (1 ≤ d ≤ 60)%Z →
  ∃ f, float_of_int d = Ok f ∧ (f =? 0)%float = false
       ∧ (0 / f)%float = 0%float.
Proof.
  intros Hd.
  pose proof durations_checked as Hall.
  rewrite forallb_forall in Hall.
  assert (Hin : In d (seqZ 1 60)) by (apply list_elem_of_In, elem_of_seqZ; lia).
  specialize (Hall d Hin).
  unfold duration_float_ok in Hall.
  destruct (float_of_int d) as [f|e]; [|discriminate Hall].
  apply andb_prop in Hall as [Hnz Hq].
  exists f. split; [done|]. split.
  - by destruct (f =? 0)%float.
  - by apply Leibniz.eqb_spec.
Qed.

Lemma schedule_burn_ok (dvx dvy : float) (duration : Z) (tm : store) :
  (1 ≤ duration ≤ 60)%Z →
  ∃ d, float_of_int duration = Ok d ∧
    App.schedule_burn dvx dvy duration tm =
      Ok (scheduled (dvx / d) (dvy / d) duration tm).
Proof.
  intros Hd. destruct (duration_float duration Hd) as (d & Hf & Hnz & _).
  exists d. split; [done|].
  unfold App.schedule_burn, float_div. rewrite Hf. simpl. rewrite Hnz.
  simpl. reflexivity.
Qed.

Lemma in_range_test (duration : Z) :
  (1 ≤ duration ≤ 60)%Z →
  ((duration <? 1) || (MAX_DUR <? duration))%Z = false.
Proof. unfold MAX_DUR. intros. apply orb_false_iff. split; apply Z.ltb_ge; lia. Qed.

Lemma out_of_range_test (duration : Z) :
  (duration < 1 ∨ 60 < duration)%Z →
  ((duration <? 1) || (MAX_DUR <? duration))%Z = true.
Proof.
  unfold MAX_DUR. intros [H|H]; apply orb_true_iff;
    [left|right]; apply Z.ltb_lt; lia.
Qed.

(** ** The burn scheduler *)

(** Lookups in a document built by [insert] and [delete] on literal keys. *)
Ltac store_lookup :=
  repeat first
    [ rewrite lookup_insert_eq
    | rewrite lookup_insert_ne by discriminate
    | rewrite lookup_delete_eq
    | rewrite lookup_delete_ne by discriminate ];
  try reflexivity.

Ltac store_lookup_in H :=
  repeat first
    [ rewrite lookup_insert_eq in H
    | rewrite lookup_insert_ne in H by discriminate
    | rewrite lookup_delete_eq in H
    | rewrite lookup_delete_ne in H by discriminate ].

Lemma parse_command_ok rt (data : store) dvx dvy duration :
  App.py_float rt (dict_get data "dvx" (PInt 0)) = Ok dvx →
  App.py_float rt (dict_get data "dvy" (PInt 0)) = Ok dvy →
  App.py_int rt (dict_get data "duration" (PInt 0)) = Ok duration →
  App.parse_command rt data = Ok (dvx, dvy, duration).
Proof.
  intros Hx Hy Hd. unfold App.parse_command.
  rewrite Hx. cbn. rewrite Hy. cbn. rewrite Hd. reflexivity.
Qed.

Lemma send_command_accepted rt now (data : store) w tm dvx dvy duration :
  App.parse_command rt data = Ok (dvx, dvy, duration) →
  (1 ≤ duration ≤ 60)%Z →
  telemetry_file w = Some tm →
  ∃ d, float_of_int duration = Ok d ∧
    let tm' := scheduled (dvx / d) (dvy / d) duration tm in
    App.send_command rt now data w =
      if log_appendable w then
        (App.Json 200 "Burn scheduled" (Some tm'),
         append_log (AuditRecord now dvx dvy duration) (set_telemetry tm' w))
      else (App.Unhandled OSError, set_telemetry tm' w).
Proof.
  intros Hp Hd Htm.
  destruct (schedule_burn_ok dvx dvy duration tm Hd) as (d & Hf & Hs).
  exists d. split; [done|]. cbn zeta.
  unfold App.send_command.
  rewrite Hp, (in_range_test _ Hd), Htm, Hs. reflexivity.
Qed.

(** C2: a request that parses to [dvx], [dvy] and a duration in [1, 60]
    stores [burn_rate_x = dvx/duration], [burn_rate_y = dvy/duration],
    [burn_remaining = duration] and the status of a burn with [duration]
    seconds left.  The four fields are functions of the request alone,
    whatever burn the document held; every other field is kept. *)
Theorem C2_schedule_postcondition rt now (data : store) w tm dvx dvy duration :
  App.parse_command rt data = Ok (dvx, dvy, duration) →
  (1 ≤ duration ≤ 60)%Z →
  telemetry_file w = Some tm →
  ∃ d tm',
    float_of_int duration = Ok d ∧
    telemetry_file (App.send_command rt now data w).2 = Some tm' ∧
    tm' !! "burn_rate_x" = Some (PFloat (dvx / d)) ∧
    tm' !! "burn_rate_y" = Some (PFloat (dvy / d)) ∧
    tm' !! "burn_remaining" = Some (PInt duration) ∧
    tm' !! "status" = Some (PStr (burning_msg (pretty duration))) ∧
    ∀ k, k ∉ ["burn_rate_x"; "burn_rate_y"; "burn_remaining"; "status"] →
         tm' !! k = tm !! k.
Proof.
  intros Hp Hd Htm.
  destruct (send_command_accepted rt now data w tm dvx dvy duration Hp Hd Htm)
    as (d & Hf & Hs).
  cbn zeta in Hs. eexists d, _. split; [done|]. split.
  { rewrite Hs. by destruct (log_appendable w). }
  unfold scheduled. repeat split; [store_lookup..|].
  intros k Hk.
  rewrite !lookup_insert_ne; [done|..]; intros <-; apply Hk;
    rewrite !elem_of_cons; tauto.
Qed.

(** C5: a request whose duration is outside [1, 60] is answered with the
    duration error and status 400, and no file changes. *)
Theorem C5_invalid_duration_rejected rt now (data : store) w dvx dvy duration :
  App.parse_command rt data = Ok (dvx, dvy, duration) →
  (duration < 1 ∨ 60 < duration)%Z →
  App.send_command rt now data w =
    (App.Json 400 "ERROR: Duration must be 1–60 s" None, w).
Proof.
  intros Hp Hd. unfold App.send_command.
  rewrite Hp, (out_of_range_test _ Hd). reflexivity.
Qed.

Lemma C2_witness :
  App.parse_command ref_runtime (request (PFloat 1) (PInt 0) (PInt 10))
    = Ok (1%float, 0%float, 10%Z) ∧
  ∃ d tm',
    float_of_int 10 = Ok d ∧
    telemetry_file
      (App.send_command ref_runtime "t0"
         (request (PFloat 1) (PInt 0) (PInt 10)) boot).2 = Some tm' ∧
    tm' !! "burn_rate_x" = Some (PFloat (1 / d)) ∧
    tm' !! "burn_rate_y" = Some (PFloat (0 / d)) ∧
    tm' !! "burn_remaining" = Some (PInt 10) ∧
    tm' !! "status" = Some (PStr (burning_msg (pretty 10%Z))) ∧
    ∀ k, k ∉ ["burn_rate_x"; "burn_rate_y"; "burn_remaining"; "status"] →
         tm' !! k = App.initial !! k.
Proof.
  split; [vm_compute; reflexivity|].
  apply (C2_schedule_postcondition ref_runtime "t0"
           (request (PFloat 1) (PInt 0) (PInt 10)) boot App.initial 1 0 10).
  - vm_compute; reflexivity.
  - lia.
  - reflexivity.
Defined.

Lemma C5_witness :
  App.send_command ref_runtime "t0" (request (PFloat 1) (PInt 0) (PInt 61)) boot
    = (App.Json 400 "ERROR: Duration must be 1–60 s" None, boot).
Proof.
  apply (C5_invalid_duration_rejected ref_runtime "t0" _ boot 1 0 61).
  - vm_compute; reflexivity.
  - lia.
Defined.

(** C7, as stated, fails: when the log cannot be opened the exception
    escapes the handler and the caller receives the server error. *)
Lemma C7_log_failure_surfaces :
  App.parse_command ref_runtime (request (PFloat 1) (PInt 0) (PInt 10))
    = Ok (1%float, 0%float, 10%Z) ∧
  log_appendable boot_log_locked = false ∧
  (App.send_command ref_runtime "t0"
     (request (PFloat 1) (PInt 0) (PInt 10)) boot_log_locked).1
    = App.Unhandled OSError.
Proof. vm_compute. repeat split; reflexivity. Qed.

(** C7 (amended): when the audit record of a validated command cannot be
    appended, the telemetry update is neither blocked nor undone: the file
    holds the scheduled burn, exactly as after a logged command. *)
Theorem C7_log_failure_keeps_update rt now (data : store) w tm dvx dvy duration :
  App.parse_command rt data = Ok (dvx, dvy, duration) →
  (1 ≤ duration ≤ 60)%Z →
  telemetry_file w = Some tm →
  log_appendable w = false →
  ∃ d, float_of_int duration = Ok d ∧
    telemetry_file (App.send_command rt now data w).2
      = Some (scheduled (dvx / d) (dvy / d) duration tm).
Proof.
  intros Hp Hd Htm Hlog.
  destruct (send_command_accepted rt now data w tm dvx dvy duration Hp Hd Htm)
    as (d & Hf & Hs).
  exists d. split; [done|]. cbn zeta in Hs. rewrite Hs, Hlog. reflexivity.
Qed.

Lemma C7_witness :
  ∃ d, float_of_int 10 = Ok d ∧
    telemetry_file
      (App.send_command ref_runtime "t0"
         (request (PFloat 1) (PInt 0) (PInt 10)) boot_log_locked).2
      = Some (scheduled (1 / d) (0 / d) 10 App.initial).
Proof.
  apply (C7_log_failure_keeps_update ref_runtime "t0" _ boot_log_locked
           App.initial 1 0 10).
  - vm_compute; reflexivity.
  - lia.
  - reflexivity.
  - reflexivity.
Defined.

Lemma default_of_missing (data : store) (k : string) :
  data !! k = None → dict_get data k (PInt 0) = PInt 0.
Proof. intros H. unfold dict_get. by rewrite H. Qed.

(** C10: a request without [dvx] (or [dvy]) is parsed with 0.0 in its place
    and, the rest being valid, schedules a burn of rate 0.0 on that axis; a
    request without [duration] is parsed with duration 0 and, its other
    fields being valid, is answered with the duration error whatever the
    state of the files, which it leaves as they are. *)
Theorem C10_missing_fields_default rt now (data : store) w :
  (data !! "dvx" = None →
   ∀ dvy duration tm,
     App.py_float rt (dict_get data "dvy" (PInt 0)) = Ok dvy →
     App.py_int rt (dict_get data "duration" (PInt 0)) = Ok duration →
     (1 ≤ duration ≤ 60)%Z →
     telemetry_file w = Some tm →
     App.parse_command rt data = Ok (0%float, dvy, duration) ∧
     ∃ tm', telemetry_file (App.send_command rt now data w).2 = Some tm' ∧
            tm' !! "burn_rate_x" = Some (PFloat 0) ∧
            tm' !! "burn_remaining" = Some (PInt duration)) ∧
  (data !! "dvy" = None →
   ∀ dvx duration tm,
     App.py_float rt (dict_get data "dvx" (PInt 0)) = Ok dvx →
     App.py_int rt (dict_get data "duration" (PInt 0)) = Ok duration →
     (1 ≤ duration ≤ 60)%Z →
     telemetry_file w = Some tm →
     App.parse_command rt data = Ok (dvx, 0%float, duration) ∧
     ∃ tm', telemetry_file (App.send_command rt now data w).2 = Some tm' ∧
            tm' !! "burn_rate_y" = Some (PFloat 0) ∧
            tm' !! "burn_remaining" = Some (PInt duration)) ∧
  (data !! "duration" = None →
   ∀ dvx dvy,
     App.py_float rt (dict_get data "dvx" (PInt 0)) = Ok dvx →
     App.py_float rt (dict_get data "dvy" (PInt 0)) = Ok dvy →
     App.parse_command rt data = Ok (dvx, dvy, 0%Z) ∧
     App.send_command rt now data w = (App.invalid_duration, w)).
Proof.
  assert (Hzero : App.py_float rt (PInt 0) = Ok 0%float)
    by (vm_compute; reflexivity).
  split; [|split].
  - intros Hmiss dvy duration tm Hy Hdur Hd Htm.
    assert (Hp : App.parse_command rt data = Ok (0%float, dvy, duration)).
    { apply parse_command_ok; [|done..].
      by rewrite (default_of_missing _ _ Hmiss). }
    split; [done|].
    destruct (send_command_accepted rt now data w tm _ _ _ Hp Hd Htm)
      as (d & Hf & Hs).
    destruct (duration_float duration Hd) as (d' & Hf' & _ & Hq).
    assert (d' = d) as -> by congruence.
    cbn zeta in Hs. eexists. split.
    { rewrite Hs. by destruct (log_appendable w). }
    unfold scheduled. split; store_lookup. by rewrite Hq.
  - intros Hmiss dvx duration tm Hx Hdur Hd Htm.
    assert (Hp : App.parse_command rt data = Ok (dvx, 0%float, duration)).
    { apply parse_command_ok; [done| |done].
      by rewrite (default_of_missing _ _ Hmiss). }
    split; [done|].
    destruct (send_command_accepted rt now data w tm _ _ _ Hp Hd Htm)
      as (d & Hf & Hs).
    destruct (duration_float duration Hd) as (d' & Hf' & _ & Hq).
    assert (d' = d) as -> by congruence.
    cbn zeta in Hs. eexists. split.
    { rewrite Hs. by destruct (log_appendable w). }
    unfold scheduled. split; store_lookup. by rewrite Hq.
  - intros Hmiss dvx dvy Hx Hy.
    assert (Hp : App.parse_command rt data = Ok (dvx, dvy, 0%Z)).
    { apply parse_command_ok; [done..|].
      by rewrite (default_of_missing _ _ Hmiss). }
    split; [done|].
    unfold App.send_command. rewrite Hp. reflexivity.
Qed.

Lemma C10_witness :
  (∃ tm',
     telemetry_file
       (App.send_command ref_runtime "t0"
          (<["dvy" := PFloat 2]> (<["duration" := PInt 5]> ∅)) boot).2
       = Some tm' ∧
     tm' !! "burn_rate_x" = Some (PFloat 0) ∧
     tm' !! "burn_remaining" = Some (PInt 5)) ∧
  App.send_command ref_runtime "t0"
    (<["dvx" := PFloat 1]> (<["dvy" := PFloat 2]> ∅)) boot_log_locked
    = (App.invalid_duration, boot_log_locked).
Proof.
  split.
  - pose proof (proj1 (C10_missing_fields_default ref_runtime "t0"
                    (<["dvy" := PFloat 2]> (<["duration" := PInt 5]> ∅)) boot))
      as H.
    refine (proj2 (H _ 2%float 5%Z App.initial _ _ _ _));
      first [lia | vm_compute; reflexivity].
  - pose proof (proj2 (proj2 (C10_missing_fields_default ref_runtime "t0"
                    (<["dvx" := PFloat 1]> (<["dvy" := PFloat 2]> ∅))
                    boot_log_locked))) as H.
    refine (proj2 (H _ 1%float 2%float _ _)); vm_compute; reflexivity.
Defined.

(** ** The angle feed *)

Lemma last_1000_length {A} (l : list A) : length (Sim.last_1000 l) ≤ 1000.
Proof. unfold Sim.last_1000. rewrite length_drop. lia. Qed.

Lemma last_1000_absorb {A} (a s : list A) :
  Sim.last_1000 (Sim.last_1000 a ++ s) = Sim.last_1000 (a ++ s).
Proof.
  unfold Sim.last_1000.
  rewrite <- (drop_app_le a s) by lia.
  rewrite drop_drop, !length_drop, !length_app. f_equal. lia.
Qed.

Lemma feed_append_full (l : list Sim.feed_entry) e :
  length l = 1000 → Sim.feed_append l e = drop 1 l ++ [e].
Proof.
  intros Hl. unfold Sim.feed_append, Sim.last_1000.
  rewrite length_app, Hl. simpl. apply drop_app_le. lia.
Qed.

Lemma feed_appends (l samples : list Sim.feed_entry) :
  length l ≤ 1000 →
  foldl Sim.feed_append l samples = Sim.last_1000 (l ++ samples).
Proof.
  revert l. induction samples as [|e samples IH]; intros l Hl; simpl.
  - rewrite app_nil_r. unfold Sim.last_1000.
    replace (length l - 1000) with 0 by lia. reflexivity.
  - rewrite IH by apply last_1000_length.
    unfold Sim.feed_append. rewrite last_1000_absorb.
    by rewrite <- app_assoc.
Qed.

Lemma bind_Ok {A B} (m : result A) (k : A → result B) (b : B) :
  m ≫= k = Ok b → ∃ a, m = Ok a ∧ k a = Ok b.
Proof. destruct m as [a|e]; [|discriminate]. intros H. by exists a. Qed.

Lemma peek_Ok (r : result store) (k : string) (tm : store) :
  r = Ok tm → peek r k = Ok (tm !! k).
Proof. by intros ->. Qed.

Lemma ok_value {A : Type} (d : A) (r : result A) :
  is_ok r = true → r = Ok (value_or d r).
Proof. by destruct r. Qed.

Lemma angular_motion_angle speed (tm tm' : store) :
  Sim.angular_motion speed tm = Ok tm' →
  ∃ a, tm' !! "angle" = Some (PFloat a).
Proof.
  unfold Sim.angular_motion. intros H.
  repeat (apply bind_Ok in H as (? & _ & H)).
  injection H as <-. eexists. apply lookup_insert_eq.
Qed.

Lemma propagate_angle rt (tm tm' : store) :
  Sim.propagate rt tm = Ok tm' → ∃ a, tm' !! "angle" = Some (PFloat a).
Proof.
  unfold Sim.propagate. intros H.
  do 3 (apply bind_Ok in H as (? & _ & H)).
  by apply angular_motion_angle in H.
Qed.

Lemma write_feed_writable (angle_log : list Sim.feed_entry) w :
  feed_writable w = true → write_feed angle_log w = set_feed angle_log w.
Proof. unfold feed_writable, write_feed. by destruct (feed_write w). Qed.

Lemma sim_iteration_ok rt now_ms w (tm tm' : store) a :
  telemetry_file w = Some tm →
  Sim.propagate rt tm = Ok tm' →
  tm' !! "angle" = Some (PFloat a) →
  let entry := Sim.FeedEntry now_ms (PFloat (builtin_round rt a 4)) in
  let feed' := Sim.feed_append (default [] (angle_feed w)) entry in
  (sim_iteration rt now_ms w).1 = set_telemetry tm' (write_feed feed' w).
Proof.
  intros Htm Hp Ha. unfold sim_iteration. rewrite Htm, Hp.
  unfold dict_get. rewrite Ha. simpl.
  by destruct (Sim.report tm').
Qed.

(** C8: an iteration that writes the feed leaves the old entries followed
    by the sample [{timestamp_ms, round(angle, 4)}], cut to the last 1000:
    at most 1000 entries; a feed of 1000 entries loses exactly its oldest
    one; and 1001 samples appended to an empty feed leave the last 1000 of
    them, the first sample being dropped. *)
Theorem C8_feed_cap rt now_ms w (tm tm' : store) :
  telemetry_file w = Some tm →
  Sim.propagate rt tm = Ok tm' →
  feed_writable w = true →
  ∃ a feed',
    tm' !! "angle" = Some (PFloat a) ∧
    angle_feed (sim_iteration rt now_ms w).1 = Some feed' ∧
    let old := default [] (angle_feed w) in
    let entry := Sim.FeedEntry now_ms (PFloat (builtin_round rt a 4)) in
    feed' = Sim.feed_append old entry ∧
    length feed' ≤ 1000 ∧
    (length old < 1000 → feed' = old ++ [entry]) ∧
    (length old = 1000 → feed' = drop 1 old ++ [entry]) ∧
    ∀ samples : list Sim.feed_entry,
      length samples = 1001 →
      foldl Sim.feed_append [] samples = drop 1 samples ∧
      length (foldl Sim.feed_append [] samples) = 1000.
Proof.
  intros Htm Hp Hw.
  destruct (propagate_angle rt tm tm' Hp) as [a Ha].
  exists a. eexists. split; [done|]. split.
  { rewrite (sim_iteration_ok rt now_ms w tm tm' a Htm Hp Ha).
    rewrite (write_feed_writable _ w Hw). reflexivity. }
  cbn zeta. split; [done|]. split; [apply last_1000_length|].
  split; [|split].
  - intros Hl. unfold Sim.feed_append, Sim.last_1000.
    rewrite length_app. simpl.
    replace (length (default [] (angle_feed w)) + 1 - 1000) with 0 by lia.
    reflexivity.
  - apply feed_append_full.
  - intros samples Hs.
    rewrite feed_appends by (simpl; lia). simpl.
    unfold Sim.last_1000. rewrite Hs. simpl.
    split; [done|]. rewrite length_drop. lia.
Qed.

Lemma first_tick_computed : Sim.propagate ref_runtime App.initial = Ok first_tick.
Proof. vm_compute. reflexivity. Qed.

Lemma C8_witness :
  ∃ a feed',
    first_tick !! "angle" = Some (PFloat a) ∧
    angle_feed (sim_iteration ref_runtime 1700000000000 boot).1 = Some feed' ∧
    let old := default [] (angle_feed boot) in
    let entry :=
      Sim.FeedEntry 1700000000000 (PFloat (builtin_round ref_runtime a 4)) in
    feed' = Sim.feed_append old entry ∧
    length feed' ≤ 1000 ∧
    (length old < 1000 → feed' = old ++ [entry]) ∧
    (length old = 1000 → feed' = drop 1 old ++ [entry]) ∧
    ∀ samples : list Sim.feed_entry,
      length samples = 1001 →
      foldl Sim.feed_append [] samples = drop 1 samples ∧
      length (foldl Sim.feed_append [] samples) = 1000.
Proof.
  apply (C8_feed_cap ref_runtime 1700000000000 boot App.initial first_tick).
  - reflexivity.
  - exact first_tick_computed.
  - reflexivity.
Defined.

(** ** Burn integration *)

Lemma burn_integration_idle rt (tm : store) :
  tm !! "burn_remaining" = None → Sim.burn_integration rt tm = Ok tm.
Proof.
  intros H. unfold Sim.burn_integration, dict_get. rewrite H. reflexivity.
Qed.

(** An active integer countdown: the velocity is advanced, the countdown is
    decremented, and the burn is cleared when it reaches zero. *)
Lemma burn_integration_active rt (tm tm1 : store) (n : Z) :
  tm !! "burn_remaining" = Some (PInt n) →
  (1 ≤ n)%Z →
  Sim.burn_integration rt tm = Ok tm1 →
  ∃ vx rate_x vx' vy rate_y vy',
    tm !! "vx" = Some vx ∧ tm !! "burn_rate_x" = Some rate_x ∧
    py_add vx rate_x = Ok vx' ∧
    tm !! "vy" = Some vy ∧ tm !! "burn_rate_y" = Some rate_y ∧
    py_add vy rate_y = Ok vy' ∧
    let moved := <["vy" := vy']> (<["vx" := vx']> tm) in
    let counted :=
      <["status" := PStr (burning_msg (pretty (n - 1)%Z))]>
        (<["burn_remaining" := PInt (n - 1)]> moved) in
    tm1 =
      if (n =? 1)%Z then
        <["status" := PStr "Stable"]>
          (delete "burn_remaining"
             (delete "burn_rate_y" (delete "burn_rate_x" counted)))
      else counted.
Proof.
  intros Hbr Hn. unfold Sim.burn_integration, dict_get, getitem.
  rewrite Hbr. simpl default. cbn [py_gt0 mbind result_bind].
  replace (0 <? n)%Z with true by (symmetry; apply Z.ltb_lt; lia).
  destruct (tm !! "vx") as [vx|] eqn:Hvx; [|discriminate].
  destruct (tm !! "burn_rate_x") as [rate_x|] eqn:Hrx; [|discriminate].
  cbn [mbind result_bind].
  destruct (py_add vx rate_x) as [vx'|] eqn:Hax; [|discriminate].
  cbn [mbind result_bind].
  rewrite !lookup_insert_ne by discriminate.
  destruct (tm !! "vy") as [vy|] eqn:Hvy; [|discriminate].
  destruct (tm !! "burn_rate_y") as [rate_y|] eqn:Hry; [|discriminate].
  cbn [mbind result_bind].
  destruct (py_add vy rate_y) as [vy'|] eqn:Hay; [|discriminate].
  cbn [mbind result_bind].
  rewrite !lookup_insert_ne by discriminate. rewrite Hbr.
  cbn [mbind result_bind py_sub1 py_le0 py_str].
  intros H. exists vx, rate_x, vx', vy, rate_y, vy'.
  repeat (split; [done|]). cbn zeta.
  destruct (Z.eqb_spec n 1) as [->|Hne].
  - change (1 - 1 <=? 0)%Z with true in H. by injection H as <-.
  - replace (n - 1 <=? 0)%Z with false in H
      by (symmetry; apply Z.leb_gt; lia).
    by injection H as <-.
Qed.

(** What a tick does to the burn fields of an active integer countdown. *)
Lemma burn_integration_fields rt (tm tm1 : store) (n : Z) :
  tm !! "burn_remaining" = Some (PInt n) →
  (1 ≤ n)%Z →
  Sim.burn_integration rt tm = Ok tm1 →
  if (n =? 1)%Z then
    tm1 !! "burn_remaining" = None ∧ tm1 !! "burn_rate_x" = None ∧
    tm1 !! "burn_rate_y" = None ∧ tm1 !! "status" = Some (PStr "Stable")
  else
    tm1 !! "burn_remaining" = Some (PInt (n - 1)) ∧
    tm1 !! "burn_rate_x" = tm !! "burn_rate_x" ∧
    tm1 !! "burn_rate_y" = tm !! "burn_rate_y" ∧
    tm1 !! "status" = Some (PStr (burning_msg (pretty (n - 1)%Z))).
Proof.
  intros Hbr Hn H.
  destruct (burn_integration_active rt tm tm1 n Hbr Hn H)
    as (vx & rate_x & vx' & vy & rate_y & vy' & _ & _ & _ & _ & _ & _ & ->).
  cbn zeta. destruct (n =? 1)%Z; repeat split; store_lookup.
Qed.

(** The rest of the tick writes [radius], [altitude] and [angle] only. *)
Lemma orbital_dynamics_frame rt speed (tm tm' : store) (k : string) :
  Sim.orbital_dynamics rt speed tm = Ok tm' →
  k ≠ "radius" → k ≠ "altitude" → tm' !! k = tm !! k.
Proof.
  unfold Sim.orbital_dynamics. intros H Hr Ha.
  destruct (0 <? speed)%float.
  - do 3 (apply bind_Ok in H as (? & _ & H)). injection H as <-.
    by rewrite !lookup_insert_ne.
  - by injection H as <-.
Qed.

Lemma angular_motion_frame speed (tm tm' : store) (k : string) :
  Sim.angular_motion speed tm = Ok tm' →
  k ≠ "angle" → tm' !! k = tm !! k.
Proof.
  unfold Sim.angular_motion. intros H Ha.
  do 5 (apply bind_Ok in H as (? & _ & H)). injection H as <-.
  by rewrite lookup_insert_ne.
Qed.

Lemma propagate_frame rt (tm tm' : store) :
  Sim.propagate rt tm = Ok tm' →
  ∃ tm1, Sim.burn_integration rt tm = Ok tm1 ∧
    ∀ k, k ≠ "radius" → k ≠ "altitude" → k ≠ "angle" →
         tm' !! k = tm1 !! k.
Proof.
  unfold Sim.propagate. intros H.
  apply bind_Ok in H as (tm1 & Hb & H).
  apply bind_Ok in H as (speed & _ & H).
  apply bind_Ok in H as (tm2 & Ho & H).
  exists tm1. split; [done|]. intros k Hr Hal Han.
  rewrite (angular_motion_frame _ _ _ k H Han).
  by apply (orbital_dynamics_frame rt speed).
Qed.

(** One tick on an active integer countdown, on the stored document. *)
Lemma propagate_burn_fields rt (tm tm' : store) (n : Z) :
  tm !! "burn_remaining" = Some (PInt n) →
  (1 ≤ n)%Z →
  Sim.propagate rt tm = Ok tm' →
  if (n =? 1)%Z then
    tm' !! "burn_remaining" = None ∧ tm' !! "burn_rate_x" = None ∧
    tm' !! "burn_rate_y" = None ∧ tm' !! "status" = Some (PStr "Stable")
  else
    tm' !! "burn_remaining" = Some (PInt (n - 1)) ∧
    tm' !! "burn_rate_x" = tm !! "burn_rate_x" ∧
    tm' !! "burn_rate_y" = tm !! "burn_rate_y" ∧
    tm' !! "status" = Some (PStr (burning_msg (pretty (n - 1)%Z))).
Proof.
  intros Hbr Hn H.
  destruct (propagate_frame rt tm tm' H) as (tm1 & Hb & Hframe).
  pose proof (burn_integration_fields rt tm tm1 n Hbr Hn Hb) as Hf.
  rewrite !Hframe by discriminate. exact Hf.
Qed.

Lemma ticks_S rt n (tm : store) :
  Sim.ticks rt (S n) tm = Sim.propagate rt tm ≫= Sim.ticks rt n.
Proof. reflexivity. Qed.

(** C1, as stated, fails: the tick that brings the countdown to zero stores
    "Stable", so the status of a burn with 0 seconds left is never stored. *)
Lemma C1_zero_never_stored :
  one_second_burn !! "burn_remaining" = Some (PInt 1) ∧
  peek (Sim.ticks ref_runtime 1 one_second_burn) "status"
    = Ok (Some (PStr "Stable")) ∧
  ¬ burning_observed ref_runtime one_second_burn 1 0.
Proof.
  assert (Hs : peek (Sim.ticks ref_runtime 1 one_second_burn) "status"
               = Ok (Some (PStr "Stable"))) by (vm_compute; reflexivity).
  split; [reflexivity|]. split; [exact Hs|].
  intros (j & tmj & Hj & Ht & Hst).
  assert (j = 1) as -> by lia.
  rewrite (peek_Ok _ "status" _ Ht), Hst in Hs.
  vm_compute in Hs. discriminate Hs.
Qed.

(** C1 (amended): from a document with [burn_remaining = N >= 1], if [N]
    ticks complete, then after them the three burn fields are absent and the
    status is "Stable", and for every [j] with [1 <= j < N] the document
    after [j] ticks has [burn_remaining = N - j] and the status of a burn
    with [N - j] seconds left: the countdown shown goes from [N - 1] down to
    [1]. *)
Theorem C1_burn_countdown rt (N : nat) (tm tmN : store) :
  tm !! "burn_remaining" = Some (PInt (Z.of_nat N)) →
  1 ≤ N →
  Sim.ticks rt N tm = Ok tmN →
  (tmN !! "burn_remaining" = None ∧ tmN !! "burn_rate_x" = None ∧
   tmN !! "burn_rate_y" = None ∧ tmN !! "status" = Some (PStr "Stable")) ∧
  ∀ j, 1 ≤ j < N →
    ∃ tmj, Sim.ticks rt j tm = Ok tmj ∧
      tmj !! "burn_remaining" = Some (PInt (Z.of_nat (N - j))) ∧
      tmj !! "status" = Some (PStr (burning_msg (pretty (Z.of_nat (N - j))))).
Proof.
  revert tm. induction N as [|n IH]; intros tm Hbr HN Ht; [lia|].
  rewrite ticks_S in Ht. apply bind_Ok in Ht as (tm1 & Hp & Ht).
  pose proof (propagate_burn_fields rt tm tm1 _ Hbr ltac:(lia) Hp) as Hf.
  destruct n as [|n].
  - injection Ht as <-. split; [exact Hf|]. intros j Hj. lia.
  - replace (Z.of_nat (S (S n)) =? 1)%Z with false in Hf
      by (symmetry; apply Z.eqb_neq; lia).
    replace (Z.of_nat (S (S n)) - 1)%Z with (Z.of_nat (S n)) in Hf by lia.
    destruct Hf as (Hbr1 & _ & _ & Hst1).
    destruct (IH tm1 Hbr1 ltac:(lia) Ht) as [Hfinal Hmid].
    split; [exact Hfinal|]. intros j Hj.
    destruct j as [|[|j]]; [lia| |].
    + exists tm1. split; [|split].
      * rewrite ticks_S, Hp. reflexivity.
      * by replace (S (S n) - 1) with (S n) by lia.
      * by replace (S (S n) - 1) with (S n) by lia.
    + destruct (Hmid (S j) ltac:(lia)) as (tmj & Htj & Hbrj & Hstj).
      exists tmj. split; [|split].
      * rewrite ticks_S, Hp. exact Htj.
      * by replace (S (S n) - S (S j)) with (S n - S j) by lia.
      * by replace (S (S n) - S (S j)) with (S n - S j) by lia.
Qed.

Lemma C1_witness :
  let tmN := value_or ∅ (Sim.ticks ref_runtime 10 ten_second_burn) in
  Sim.ticks ref_runtime 10 ten_second_burn = Ok tmN ∧
  (tmN !! "burn_remaining" = None ∧ tmN !! "burn_rate_x" = None ∧
   tmN !! "burn_rate_y" = None ∧ tmN !! "status" = Some (PStr "Stable")) ∧
  ∀ j, 1 ≤ j < 10 →
    ∃ tmj, Sim.ticks ref_runtime j ten_second_burn = Ok tmj ∧
      tmj !! "burn_remaining" = Some (PInt (Z.of_nat (10 - j))) ∧
      tmj !! "status"
        = Some (PStr (burning_msg (pretty (Z.of_nat (10 - j))))).
Proof.
  assert (E : Sim.ticks ref_runtime 10 ten_second_burn
              = Ok (value_or ∅ (Sim.ticks ref_runtime 10 ten_second_burn)))
    by (apply ok_value; vm_compute; reflexivity).
  split; [exact E|].
  apply (C1_burn_countdown ref_runtime 10 ten_second_burn _);
    [reflexivity | lia | exact E].
Defined.

(** ** The presence invariant of the burn fields *)

Lemma burn_inv_agree (tm : store) : burn_inv tm → burn_fields_agree tm.
Proof.
  intros [(Hbr & Hrx & Hry & Hst)|(n & rx & ry & Hn & Hbr & Hrx & Hry & Hst)];
    unfold burn_fields_agree, is_burning; rewrite Hbr, Hrx, Hry.
  - split; split.
    + by intros [? ?].
    + by intros [[? ?] _].
    + by intros [? ?].
    + intros [k Hk]. destruct Hst as [Hst|Hst]; rewrite Hst in Hk;
        injection Hk as Hk; discriminate Hk.
  - rewrite Hst. split; split; eauto.
Qed.

Lemma burn_inv_initial : burn_inv App.initial.
Proof. left. repeat split; try reflexivity. by left. Qed.

Lemma burn_inv_scheduled rate_x rate_y (duration : Z) (tm : store) :
  (1 ≤ duration)%Z → burn_inv (scheduled rate_x rate_y duration tm).
Proof.
  intros Hd. right. exists duration, rate_x, rate_y. unfold scheduled.
  split; [done|]. repeat split; store_lookup.
Qed.

Lemma burn_inv_propagate rt (tm tm' : store) :
  burn_inv tm → Sim.propagate rt tm = Ok tm' → burn_inv tm'.
Proof.
  intros [(Hbr & Hrx & Hry & Hst)|(n & rx & ry & Hn & Hbr & Hrx & Hry & Hst)] Hp.
  - destruct (propagate_frame rt tm tm' Hp) as (tm1 & Hb & Hframe).
    rewrite (burn_integration_idle rt tm Hbr) in Hb. injection Hb as <-.
    left. rewrite !Hframe by discriminate. done.
  - pose proof (propagate_burn_fields rt tm tm' n Hbr Hn Hp) as Hf.
    destruct (Z.eqb_spec n 1) as [->|Hne].
    + left. destruct Hf as (? & ? & ? & ?). repeat split; auto.
    + right. exists (n - 1)%Z, rx, ry. destruct Hf as (? & ? & ? & ?).
      split; [lia|]. repeat split; congruence.
Qed.

Lemma schedule_burn_shape dvx dvy (duration : Z) (tm tm' : store) :
  App.schedule_burn dvx dvy duration tm = Ok tm' →
  ∃ rate_x rate_y, tm' = scheduled rate_x rate_y duration tm.
Proof.
  unfold App.schedule_burn. intros H.
  apply bind_Ok in H as (d & _ & H).
  apply bind_Ok in H as (rate_x & _ & H).
  apply bind_Ok in H as (rate_y & _ & H).
  injection H as <-. by exists rate_x, rate_y.
Qed.

(** A command leaves the telemetry file as it is or writes a scheduled
    burn with a duration of at least one second. *)
Lemma send_command_telemetry rt now (data : store) w :
  telemetry_file (App.send_command rt now data w).2 = telemetry_file w ∨
  ∃ rate_x rate_y duration tm,
    (1 ≤ duration)%Z ∧ telemetry_file w = Some tm ∧
    telemetry_file (App.send_command rt now data w).2
      = Some (scheduled rate_x rate_y duration tm).
Proof.
  unfold App.send_command.
  destruct (App.parse_command rt data) as [[[dvx dvy] duration]|e];
    [|destruct e; by left].
  destruct ((duration <? 1) || (MAX_DUR <? duration))%Z eqn:Hrange;
    [by left|].
  apply orb_false_iff in Hrange as [Hlo _]. apply Z.ltb_ge in Hlo.
  destruct (telemetry_file w) as [tm|] eqn:Htm; [|by left].
  destruct (App.schedule_burn dvx dvy duration tm) as [tm'|e] eqn:Hs;
    [|by left].
  apply schedule_burn_shape in Hs as (rate_x & rate_y & ->).
  right. exists rate_x, rate_y, duration, tm.
  split; [done|]. split; [done|].
  simpl. by destruct (log_appendable w).
Qed.

(** An iteration of the simulator leaves the telemetry file as it is or
    writes the result of a tick. *)
Lemma sim_iteration_telemetry rt now_ms w :
  telemetry_file (sim_iteration rt now_ms w).1 = telemetry_file w ∨
  ∃ tm tm', telemetry_file w = Some tm ∧ Sim.propagate rt tm = Ok tm' ∧
    telemetry_file (sim_iteration rt now_ms w).1 = Some tm'.
Proof.
  unfold sim_iteration.
  destruct (telemetry_file w) as [tm|] eqn:Htm; [|left; exact Htm].
  destruct (Sim.propagate rt tm) as [tm'|e] eqn:Hp; [|left; exact Htm].
  destruct (Sim.py_round4 rt _) as [rounded|e]; [|left; exact Htm].
  right. exists tm, tm'. split; [done|]. split; [done|].
  by destruct (Sim.report tm'), (feed_writable w).
Qed.







(** The tick on a burn of one second: it completes and leaves none of the
    three fields. *)
Lemma one_second_burn_exhausted :
  is_ok (Sim.propagate ref_runtime one_second_burn) = true ∧
  one_second_burn !! "burn_remaining" = Some (PInt 1) ∧
  peek (Sim.propagate ref_runtime one_second_burn) "burn_remaining" = Ok None ∧
  peek (Sim.propagate ref_runtime one_second_burn) "burn_rate_x" = Ok None ∧
  peek (Sim.propagate ref_runtime one_second_burn) "burn_rate_y" = Ok None ∧
  peek (Sim.propagate ref_runtime one_second_burn) "status"
    = Ok (Some (PStr "Stable")).
Proof. vm_compute. repeat split. Qed.

(** ** The physics update *)

Lemma burn_integration_frame rt (tm tm1 : store) :
  Sim.burn_integration rt tm = Ok tm1 →
  tm1 !! "radius" = tm !! "radius" ∧
  tm1 !! "altitude" = tm !! "altitude" ∧
  tm1 !! "angle" = tm !! "angle".
Proof.
  unfold Sim.burn_integration. intros H.
  apply bind_Ok in H as ([] & _ & H).
  - do 9 (apply bind_Ok in H as (? & _ & H)).
    match type of H with (if ?b then _ else _) = _ => destruct b end;
      injection H as <-; repeat split; store_lookup.
  - by injection H as <-.
Qed.

Lemma float_eqb_zero_not_pos (x : float) :
  (x =? 0)%float = true → (0 <? x)%float = false.
Proof.
  rewrite FloatAxioms.eqb_spec, FloatAxioms.ltb_spec.
  change (Prim2SF 0) with (S754_zero false).
  by destruct (Prim2SF x) as [[]|[]| |[] m e].
Qed.

Lemma earth_radius_float : float_of_int EARTH_R = Ok 6371%float.
Proof. vm_compute. reflexivity. Qed.

Lemma float_rem_360 (x : float) : ∃ y, float_rem x 360 = Ok y.
Proof.
  unfold float_rem. change (360 =? 0)%float with false.
  change (360 <? 0)%float with false. cbn [xorb].
  destruct (fmod x 360 =? 0)%float; [eauto|].
  destruct (fmod x 360 <? 0)%float; eauto.
Qed.

(** C3: in a tick that completes, with [speed] the hypotenuse of the
    velocity left by burn integration: if [speed > 0], the radius becomes
    [GM / speed ** 2], the altitude [radius - 6371], and the angle is
    advanced by [(speed / radius) * (180 / pi)] modulo 360 with that new
    radius; if [speed == 0], radius and altitude keep their prior values. *)
Theorem C3_physics_update rt (tm tm1 tm' : store) (speed : float) :
  Sim.burn_integration rt tm = Ok tm1 →
  Sim.speed_of rt tm1 = Ok speed →
  Sim.propagate rt tm = Ok tm' →
  ((0 <? speed)%float = true →
   ∃ sq angle angle',
     float_sq rt speed = Ok sq ∧
     as_float (dict_get tm "angle" (PInt 0)) = Ok angle ∧
     let radius := (GM / sq)%float in
     let dtheta := (speed / radius * (180 / math_pi))%float in
     tm' !! "radius" = Some (PFloat radius) ∧
     tm' !! "altitude" = Some (PFloat (radius - 6371)) ∧
     float_rem (angle + dtheta) 360 = Ok angle' ∧
     tm' !! "angle" = Some (PFloat angle')) ∧
  ((speed =? 0)%float = true →
   tm' !! "radius" = tm !! "radius" ∧
   tm' !! "altitude" = tm !! "altitude").
Proof.
  intros Hb Hs Hp.
  destruct (burn_integration_frame rt tm tm1 Hb) as (Hr & Hal & Han).
  unfold Sim.propagate in Hp. rewrite Hb in Hp. cbn [mbind result_bind] in Hp.
  rewrite Hs in Hp. cbn [mbind result_bind] in Hp.
  apply bind_Ok in Hp as (tm2 & Ho & Ha).
  unfold Sim.orbital_dynamics in Ho. split.
  - intros Hpos. rewrite Hpos in Ho.
    apply bind_Ok in Ho as (sq & Hsq & Ho).
    apply bind_Ok in Ho as (radius & Hdiv & Ho).
    rewrite earth_radius_float in Ho. cbn [mbind result_bind] in Ho.
    injection Ho as <-.
    unfold float_div in Hdiv.
    destruct (sq =? 0)%float; [discriminate|]. injection Hdiv as <-.
    unfold Sim.angular_motion, getitem, dict_get in Ha.
    store_lookup_in Ha.
    cbn [mbind result_bind as_float] in Ha.
    apply bind_Ok in Ha as (omega & Hom & Ha).
    unfold float_div in Hom.
    destruct (GM / sq =? 0)%float; [discriminate|]. injection Hom as <-.
    apply bind_Ok in Ha as (angle & Hangle & Ha).
    apply bind_Ok in Ha as (angle' & Hrem & Ha).
    injection Ha as <-.
    exists sq, angle, angle'. split; [done|]. split.
    { unfold dict_get. by rewrite <- Han. }
    cbn zeta. repeat split; store_lookup. done.
  - intros Hz. rewrite (float_eqb_zero_not_pos _ Hz) in Ho.
    injection Ho as <-.
    rewrite !(angular_motion_frame _ _ _ _ Ha) by discriminate. done.
Qed.

Lemma C3_witness :
  ((0 <? 7.5)%float = true →
   ∃ sq angle angle',
     float_sq ref_runtime 7.5 = Ok sq ∧
     as_float (dict_get App.initial "angle" (PInt 0)) = Ok angle ∧
     let radius := (GM / sq)%float in
     let dtheta := (7.5 / radius * (180 / math_pi))%float in
     first_tick !! "radius" = Some (PFloat radius) ∧
     first_tick !! "altitude" = Some (PFloat (radius - 6371)) ∧
     float_rem (angle + dtheta) 360 = Ok angle' ∧
     first_tick !! "angle" = Some (PFloat angle')) ∧
  ((7.5 =? 0)%float = true →
   first_tick !! "radius" = App.initial !! "radius" ∧
   first_tick !! "altitude" = App.initial !! "altitude").
Proof.
  apply (C3_physics_update ref_runtime App.initial App.initial first_tick 7.5).
  - apply burn_integration_idle. reflexivity.
  - vm_compute. reflexivity.
  - exact first_tick_computed.
Defined.

(** ** Binary64 arithmetic on small nonnegative numbers *)

Section SpecFloatFacts.
Local Open Scope Z_scope.

Lemma digits2_pos_size (p : positive) : digits2_pos p = Pos.size p.
Proof. induction p; simpl; congruence. Qed.

Lemma digits2_pos_bounds (p : positive) :
  2 ^ (Z.pos (digits2_pos p) - 1) ≤ Z.pos p < 2 ^ Z.pos (digits2_pos p).
Proof.
  rewrite digits2_pos_size.
  pose proof (Pos.size_gt p) as Hgt. pose proof (Pos.size_le p) as Hle.
  apply Pos2Z.pos_lt_pos in Hgt. apply Pos2Z.pos_le_pos in Hle.
  rewrite Pos2Z.inj_pow in Hgt, Hle.
  assert (Hs : 2 ^ Z.pos (Pos.size p) = 2 ^ (Z.pos (Pos.size p) - 1) * 2).
  { rewrite Z.mul_comm, <- (Z.pow_succ_r 2 (Z.pos (Pos.size p) - 1)) by lia.
    f_equal. lia. }
  lia.
Qed.

Lemma Zdigits2_le (m k : Z) : 0 ≤ k → 0 ≤ m ≤ 2 ^ k → Zdigits2 m ≤ k + 1.
Proof.
  intros Hk [Hm Hmk]. destruct m as [|p|p]; simpl; [lia| |lia].
  pose proof (digits2_pos_bounds p) as [Hlo _].
  assert (Hp : 2 ^ (Z.pos (digits2_pos p) - 1) ≤ 2 ^ k) by lia.
  apply Z.pow_le_mono_r_iff in Hp; lia.
Qed.

Lemma shr_1_half (mrs : shr_record) :
  0 ≤ shr_m mrs →
  0 ≤ shr_m (shr_1 mrs) ∧ 2 * shr_m (shr_1 mrs) ≤ shr_m mrs.
Proof.
  destruct mrs as [m r s]. simpl.
  destruct m as [|[p|p|]|p]; simpl; lia.
Qed.

Lemma iter_shr_1 (p : positive) (mrs : shr_record) :
  0 ≤ shr_m mrs →
  0 ≤ shr_m (SpecFloat.iter_pos shr_1 p mrs) ∧
  shr_m (SpecFloat.iter_pos shr_1 p mrs) * 2 ^ Z.pos p ≤ shr_m mrs.
Proof.
  revert mrs. induction p as [p IH|p IH|]; intros mrs Hm;
    simpl SpecFloat.iter_pos.
  - destruct (shr_1_half mrs Hm) as [Ha Ha'].
    destruct (IH _ Ha) as [Hb Hb']. destruct (IH _ Hb) as [Hc Hc'].
    split; [done|].
    replace (Z.pos p~1) with (Z.pos p + Z.pos p + 1) by lia.
    rewrite !Z.pow_add_r by lia. change (2 ^ 1) with 2.
    assert (0 < 2 ^ Z.pos p) by (apply Z.pow_pos_nonneg; lia).
    nia.
  - destruct (IH _ Hm) as [Hb Hb']. destruct (IH _ Hb) as [Hc Hc'].
    split; [done|].
    replace (Z.pos p~0) with (Z.pos p + Z.pos p) by lia.
    rewrite !Z.pow_add_r by lia.
    assert (0 < 2 ^ Z.pos p) by (apply Z.pow_pos_nonneg; lia).
    nia.
  - destruct (shr_1_half mrs Hm). change (2 ^ 1) with 2. lia.
Qed.

Lemma round_nearest_even_bounds (m : Z) (l : location) :
  m ≤ round_nearest_even m l ≤ m + 1.
Proof.
  destruct l as [|[]]; simpl; try lia. destruct (Z.even m); lia.
Qed.

Lemma fexp_eq (k : Z) : fexp prec emax k = Z.max (k - 53) (-1074).
Proof. reflexivity. Qed.

(** Rounding a positive mantissa whose value is far below the overflow
    threshold gives a zero or a positive finite number. *)
Lemma binary_round_aux_nonneg (mx : positive) (ex : Z) :
  Z.max ex (fexp prec emax (Z.pos (digits2_pos mx) + ex)) + 1 ≤ emax - prec →
  is_nonneg_finite (binary_round_aux prec emax false (Z.pos mx) ex loc_Exact)
    = true.
Proof.
  intros Hbound. unfold binary_round_aux, shr_fexp.
  change (Zdigits2 (Z.pos mx)) with (Z.pos (digits2_pos mx)).
  set (f := fexp prec emax (Z.pos (digits2_pos mx) + ex)) in *.
  change (emax - prec) with 971 in *.
  unfold shr at 1. destruct (f - ex) as [|p|p] eqn:Hshift.
  - cbn [shr_record_of_loc shr_m loc_of_shr_record round_nearest_even].
    change (Zdigits2 (Z.pos mx)) with (Z.pos (digits2_pos mx)).
    fold f. rewrite Hshift. cbn [shr shr_m].
    replace (ex <=? 971) with true by (symmetry; apply Z.leb_le; lia).
    reflexivity.
  - pose proof (iter_shr_1 p (shr_record_of_loc (Z.pos mx) loc_Exact))
      as [Hm1 Hm1']; [simpl; lia|].
    set (mrs' := SpecFloat.iter_pos shr_1 p _) in *.
    pose proof (round_nearest_even_bounds (shr_m mrs') (loc_of_shr_record mrs'))
      as Hm2.
    set (m2 := round_nearest_even _ _) in *.
    assert (Hm2' : 0 ≤ m2 ≤ 2 ^ 53).
    { split; [lia|]. cbn [shr_record_of_loc shr_m] in Hm1'.
      pose proof (digits2_pos_bounds mx) as [_ Hd].
      assert (Hp : Z.pos (digits2_pos mx) ≤ 53 + Z.pos p).
      { unfold f in Hshift. rewrite fexp_eq in Hshift. lia. }
      assert (Hpow : 2 ^ Z.pos (digits2_pos mx) ≤ 2 ^ 53 * 2 ^ Z.pos p).
      { rewrite <- Z.pow_add_r by lia. apply Z.pow_le_mono_r; lia. }
      assert (0 < 2 ^ Z.pos p) by (apply Z.pow_pos_nonneg; lia).
      assert (shr_m mrs' < 2 ^ 53) by nia. lia. }
    pose proof (Zdigits2_le m2 53 ltac:(lia) Hm2') as Hd2.
    unfold shr. destruct (fexp prec emax (Zdigits2 m2 + (ex + Z.pos p))
                          - (ex + Z.pos p)) as [|q|q] eqn:Hshift2.
    + cbn [shr_record_of_loc shr_m]. destruct m2 as [|m|m]; [done| |lia].
      replace (ex + Z.pos p <=? 971) with true
        by (symmetry; apply Z.leb_le; lia).
      reflexivity.
    + pose proof (iter_shr_1 q (shr_record_of_loc m2 loc_Exact))
        as [Hm3 _]; [simpl; lia|].
      destruct (shr_m (SpecFloat.iter_pos shr_1 q _)) as [|m|m]; [done| |lia].
      rewrite fexp_eq in Hshift2.
      replace (ex + Z.pos p + Z.pos q <=? 971) with true
        by (symmetry; apply Z.leb_le; lia).
      reflexivity.
    + cbn [shr_record_of_loc shr_m]. destruct m2 as [|m|m]; [done| |lia].
      replace (ex + Z.pos p <=? 971) with true
        by (symmetry; apply Z.leb_le; lia).
      reflexivity.
  - cbn [shr_record_of_loc shr_m loc_of_shr_record round_nearest_even].
    change (Zdigits2 (Z.pos mx)) with (Z.pos (digits2_pos mx)).
    fold f. rewrite Hshift. cbn [shr shr_m].
    replace (ex <=? 971) with true by (symmetry; apply Z.leb_le; lia).
    reflexivity.
Qed.

Lemma iter_xO_value (m d : positive) :
  Z.pos (Pos.iter xO m d) = Z.pos m * 2 ^ Z.pos d.
Proof.
  induction d as [|d IH] using Pos.peano_ind.
  - simpl. lia.
  - rewrite Pos.iter_succ, Pos2Z.inj_succ, Z.pow_succ_r by lia. lia.
Qed.

Lemma iter_xO_digits (m d : positive) :
  Z.pos (digits2_pos (Pos.iter xO m d)) = Z.pos (digits2_pos m) + Z.pos d.
Proof.
  induction d as [|d IH] using Pos.peano_ind.
  - simpl. lia.
  - rewrite Pos.iter_succ. simpl digits2_pos. lia.
Qed.

Lemma digits2_pos_le (p : positive) (k : Z) :
  Z.pos p < 2 ^ k → Z.pos (digits2_pos p) ≤ k.
Proof.
  intros Hp. pose proof (digits2_pos_bounds p) as [Hlo _].
  assert (Hk : 0 ≤ k).
  { destruct (Z.leb_spec 0 k); [done|]. rewrite Z.pow_neg_r in Hp; lia. }
  assert (H : 2 ^ (Z.pos (digits2_pos p) - 1) < 2 ^ k) by lia.
  apply Z.pow_lt_mono_r_iff in H; lia.
Qed.

(** The mantissa of a valid finite number has at most 53 digits and its
    exponent lies between [emin] and [emax - prec]. *)
Lemma valid_finite_bounds (s : bool) (m : positive) (e : Z) :
  valid_binary (S754_finite s m e) = true →
  Z.pos m < 2 ^ 53 ∧ -1074 ≤ e ≤ 971.
Proof.
  unfold SpecFloat.valid_binary, bounded, canonical_mantissa.
  rewrite fexp_eq. intros [Hc He]%andb_prop.
  apply Z.eqb_eq in Hc. apply Z.leb_le in He. change (emax - prec) with 971 in He.
  split; [|lia].
  pose proof (digits2_pos_bounds m) as [_ Hd].
  assert (2 ^ Z.pos (digits2_pos m) ≤ 2 ^ 53)
    by (apply Z.pow_le_mono_r; lia).
  lia.
Qed.

Lemma shl_align_value (m : positive) (e e' : Z) :
  e' ≤ e → Z.pos (shl_align m e e').1 = Z.pos m * 2 ^ (e - e').
Proof.
  intros He. unfold shl_align. destruct (e' - e) as [|d|d] eqn:Hd; [|lia|].
  - replace (e - e') with 0 by lia. simpl. lia.
  - simpl. rewrite iter_xO_value. f_equal. f_equal. lia.
Qed.

(** Rounding leaves a canonical mantissa as it is. *)
Lemma binary_round_aux_canonical (m : positive) (e : Z) :
  fexp prec emax (Z.pos (digits2_pos m) + e) = e → e ≤ 971 →
  binary_round_aux prec emax false (Z.pos m) e loc_Exact
    = S754_finite false m e.
Proof.
  intros Hc He. unfold binary_round_aux, shr_fexp.
  change (Zdigits2 (Z.pos m)) with (Z.pos (digits2_pos m)).
  rewrite Hc, Z.sub_diag.
  cbn [shr shr_record_of_loc shr_m loc_of_shr_record round_nearest_even].
  change (Zdigits2 (Z.pos m)) with (Z.pos (digits2_pos m)).
  rewrite Hc, Z.sub_diag. cbn [shr shr_m].
  change (emax - prec) with 971.
  replace (e <=? 971) with true by (symmetry; apply Z.leb_le; lia).
  reflexivity.
Qed.

(** A positive integer of at most 53 digits scaled by a power of two in
    range is a float: rounding it is exact, and only moves the mantissa to
    its canonical place. *)
Lemma binary_round_exact (r : positive) (e0 : Z) :
  Z.pos r < 2 ^ 53 → -1074 ≤ e0 ≤ 971 →
  ∃ mz ez,
    binary_round prec emax false r e0 = S754_finite false mz ez ∧
    valid_binary (S754_finite false mz ez) = true ∧
    ez ≤ e0 ∧ (ez = e0 → mz = r).
Proof.
  intros Hr He.
  pose proof (digits2_pos_le r 53 Hr) as Hd.
  unfold binary_round, shl_align.
  set (f := fexp prec emax (Z.pos (digits2_pos r) + e0)).
  assert (Hf : f = Z.max (Z.pos (digits2_pos r) + e0 - 53) (-1074))
    by reflexivity.
  destruct (f - e0) as [|d|d] eqn:Hshift; [|lia|].
  - assert (f = e0) as Hfe by lia.
    exists r, e0. rewrite binary_round_aux_canonical by (fold f; lia).
    split; [done|]. split; [|lia].
    unfold SpecFloat.valid_binary, bounded, canonical_mantissa. fold f.
    rewrite Hfe, Z.eqb_refl. apply Z.leb_le. change (emax - prec) with 971. lia.
  - assert (Hc : fexp prec emax (Z.pos (digits2_pos (Pos.iter xO r d)) + f) = f).
    { rewrite iter_xO_digits. unfold f at 2.
      f_equal. lia. }
    exists (Pos.iter xO r d), f.
    rewrite binary_round_aux_canonical by (done || lia).
    split; [done|]. split; [|lia].
    unfold SpecFloat.valid_binary, bounded, canonical_mantissa.
    rewrite Hc, Z.eqb_refl. apply Z.leb_le. change (emax - prec) with 971. lia.
Qed.

(** Rounding a positive integer scaled by a power of two gives a zero or a
    positive finite number when the value is far below the overflow
    threshold. *)
Lemma binary_round_nonneg (m : positive) (e : Z) :
  e ≤ 900 → Z.pos (digits2_pos m) + e ≤ 900 →
  is_nonneg_finite (binary_round prec emax false m e) = true.
Proof.
  intros He Hd. unfold binary_round, shl_align.
  set (f := fexp prec emax (Z.pos (digits2_pos m) + e)).
  assert (Hf : f = Z.max (Z.pos (digits2_pos m) + e - 53) (-1074))
    by reflexivity.
  destruct (f - e) as [|d|d] eqn:Hshift;
    apply binary_round_aux_nonneg; change (emax - prec) with 971;
    rewrite ?iter_xO_digits, fexp_eq; lia.
Qed.

(** The sum of two positive finite numbers below 512 is a zero or a
    positive finite number. *)
Lemma SF64add_small (mx my : positive) (ex ey : Z) :
  valid_binary (S754_finite false mx ex) = true →
  valid_binary (S754_finite false my ey) = true →
  ex ≤ -44 → ey ≤ -44 →
  is_nonneg_finite
    (SF64add (S754_finite false mx ex) (S754_finite false my ey)) = true.
Proof.
  intros [Hmx Hex]%valid_finite_bounds [Hmy Hey]%valid_finite_bounds Hx Hy.
  unfold SF64add, SFadd. cbn [cond_Zopp].
  set (ez := Z.min ex ey).
  pose proof (shl_align_value mx ex ez ltac:(lia)) as Hax.
  pose proof (shl_align_value my ey ez ltac:(lia)) as Hay.
  set (a := (shl_align mx ex ez).1) in *. set (b := (shl_align my ey ez).1) in *.
  change (Z.pos a + Z.pos b) with (Z.pos (a + b)).
  cbn [binary_normalize]. apply binary_round_nonneg; [lia|].
  assert (Hsum : Z.pos (a + b) < 2 ^ (10 - ez)).
  { rewrite Pos2Z.inj_add, Hax, Hay.
    assert (Hbx : Z.pos mx * 2 ^ (ex - ez) < 2 ^ 53 * 2 ^ (-44 - ez)).
    { apply Z.le_lt_trans with (Z.pos mx * 2 ^ (-44 - ez)).
      - apply Z.mul_le_mono_nonneg_l; [lia|]. apply Z.pow_le_mono_r; lia.
      - apply Z.mul_lt_mono_pos_r; [apply Z.pow_pos_nonneg; lia|done]. }
    assert (Hby : Z.pos my * 2 ^ (ey - ez) < 2 ^ 53 * 2 ^ (-44 - ez)).
    { apply Z.le_lt_trans with (Z.pos my * 2 ^ (-44 - ez)).
      - apply Z.mul_le_mono_nonneg_l; [lia|]. apply Z.pow_le_mono_r; lia.
      - apply Z.mul_lt_mono_pos_r; [apply Z.pow_pos_nonneg; lia|done]. }
    replace (10 - ez) with (1 + (53 + (-44 - ez))) by lia.
    rewrite (Z.pow_add_r 2 1), (Z.pow_add_r 2 53) by lia.
    change (2 ^ 1) with 2. lia. }
  apply digits2_pos_le in Hsum. lia.
Qed.

Lemma shr_1_lower (mrs : shr_record) (k : Z) :
  2 * k ≤ shr_m mrs → k ≤ shr_m (shr_1 mrs).
Proof.
  destruct mrs as [m r s]. simpl.
  destruct m as [|[p|p|]|[p|p|]]; simpl; lia.
Qed.

Lemma iter_shr_1_lower (p : positive) (mrs : shr_record) (k : Z) :
  2 ^ Z.pos p * k ≤ shr_m mrs → k ≤ shr_m (SpecFloat.iter_pos shr_1 p mrs).
Proof.
  revert mrs k. induction p as [p IH|p IH|]; intros mrs k Hk;
    simpl SpecFloat.iter_pos.
  - apply IH, IH, shr_1_lower.
    replace (Z.pos p~1) with (Z.pos p + Z.pos p + 1) in Hk by lia.
    rewrite !Z.pow_add_r in Hk by lia. change (2 ^ 1) with 2 in Hk. lia.
  - apply IH, IH.
    replace (Z.pos p~0) with (Z.pos p + Z.pos p) in Hk by lia.
    rewrite !Z.pow_add_r in Hk by lia. lia.
  - apply shr_1_lower. change (2 ^ 1) with 2 in Hk. lia.
Qed.

(** A positive mantissa with an exponent of at least [emin] does not round
    to zero: the result is a finite number or an infinity with the sign
    given. *)
Lemma binary_round_aux_nonzero (sx : bool) (mx : positive) (ex : Z)
    (lx : location) :
  -1074 ≤ ex →
  is_nonzero_signed sx (binary_round_aux prec emax sx (Z.pos mx) ex lx) = true.
Proof.
  intros Hex. unfold binary_round_aux.
  assert (Hshr : ∀ (m : Z) (e : Z) (l : location),
    1 ≤ m → -1074 ≤ e →
    1 ≤ shr_m (shr_fexp prec emax m e l).1 ∧
    -1074 ≤ (shr_fexp prec emax m e l).2).
  { intros m e l Hm He. unfold shr_fexp, shr. rewrite fexp_eq.
    destruct (Z.max (Zdigits2 m + e - 53) (-1074) - e) as [|n|n] eqn:Hn;
      cbn [fst snd]; [by destruct l as [|[]]| |by destruct l as [|[]]].
    split; [|lia]. apply iter_shr_1_lower.
    assert (Hd : 2 ^ (Zdigits2 m - 1) ≤ m).
    { destruct m as [|p|p]; [lia| |lia]. apply digits2_pos_bounds. }
    assert (Hlt : 2 ^ Z.pos n ≤ 2 ^ (Zdigits2 m - 1))
      by (apply Z.pow_le_mono_r; lia).
    destruct l as [|[]]; cbn [shr_record_of_loc shr_m]; lia. }
  destruct (Hshr (Z.pos mx) ex lx ltac:(lia) Hex) as [Hm1 He1].
  destruct (shr_fexp prec emax (Z.pos mx) ex lx) as [mrs' e'].
  cbn [fst snd] in Hm1, He1.
  pose proof (round_nearest_even_bounds (shr_m mrs') (loc_of_shr_record mrs'))
    as Hm2.
  destruct (Hshr (round_nearest_even (shr_m mrs') (loc_of_shr_record mrs'))
              e' loc_Exact ltac:(lia) He1) as [Hm3 _].
  destruct (shr_fexp prec emax _ e' loc_Exact) as [mrs'' e''].
  cbn [fst snd] in Hm3. destruct (shr_m mrs'') as [|m|m]; [lia| |lia].
  destruct (e'' <=? emax - prec); simpl; by destruct sx.
Qed.

(** The quotient of the binary64 value of [GM] by a finite number is not
    zero: it is finite or infinite, with the sign of the divisor. *)
Lemma SF64div_GM_nonzero (s : bool) (m : positive) (e : Z) :
  valid_binary (S754_finite s m e) = true →
  is_nonzero_signed s (SF64div (Prim2SF GM) (S754_finite s m e)) = true.
Proof.
  intros [Hm He]%valid_finite_bounds.
  change (Prim2SF GM) with (S754_finite false 6847903446808605 (-34)).
  unfold SF64div, SFdiv, SFdiv_core_binary.
  change (Zdigits2 (Z.pos 6847903446808605)) with 53.
  change (Zdigits2 (Z.pos m)) with (Z.pos (digits2_pos m)).
  rewrite fexp_eq. set (d := Z.pos (digits2_pos m)).
  pose proof (digits2_pos_bounds m) as [_ Hd]. fold d in Hd.
  assert (Hd53 : d ≤ 53) by (apply digits2_pos_le; done).
  set (e' := Z.min (Z.max (53 + -34 - (d + e) - 53) (-1074)) (-34 - e)).
  assert (He' : -1074 ≤ e') by (unfold e'; lia).
  assert (Hs : d ≤ -34 - e - e' ∨ 69 ≤ -34 - e - e') by (unfold e', d; lia).
  destruct (-34 - e - e') as [|sh|sh] eqn:Hsh; [lia| |lia].
  rewrite Z.shiftl_mul_pow2 by lia.
  set (num := 6847903446808605 * 2 ^ Z.pos sh).
  assert (Hnum : Z.pos m ≤ num).
  { unfold num. destruct Hs as [Hs|Hs].
    - assert (2 ^ d ≤ 2 ^ Z.pos sh) by (apply Z.pow_le_mono_r; lia). nia.
    - assert (2 ^ 53 ≤ 2 ^ Z.pos sh) by (apply Z.pow_le_mono_r; lia). nia. }
  pose proof (Z.div_str_pos num (Z.pos m) ltac:(lia)) as Hq.
  unfold Z.div in Hq. destruct (Z.div_eucl num (Z.pos m)) as [q r].
  destruct q as [|q|q]; [lia| |lia].
  cbn [xorb]. by apply binary_round_aux_nonzero.
Qed.

End SpecFloatFacts.


Lemma SFltb_pos_pos (m1 m2 : positive) (e1 e2 : Z) :
  (e1 < e2)%Z ∨ (e1 = e2 ∧ (Z.pos m1 < Z.pos m2)%Z) →
  SFltb (S754_finite false m1 e1) (S754_finite false m2 e2) = true.
Proof.
  unfold SFltb, SFcompare. intros [Hlt|[-> Hm]].
  - apply Z.compare_lt_iff in Hlt. by rewrite Hlt.
  - rewrite Z.compare_refl.
    change (Pos.compare_cont Eq m1 m2 = Lt) in Hm. by rewrite Hm.
Qed.

Lemma angle_in_range_below (a : float) :
  angle_in_range a = true → below_512 (Prim2SF a) = true.
Proof.
  unfold angle_in_range. intros [Hlo Hhi]%andb_prop.
  rewrite FloatAxioms.leb_spec in Hlo. rewrite FloatAxioms.ltb_spec in Hhi.
  change (Prim2SF 0) with (S754_zero false) in Hlo.
  change (Prim2SF 360) with (S754_finite false 6333186975989760 (-44)) in Hhi.
  destruct (Prim2SF a) as [s|s| |s m e]; [done|by destruct s|done|].
  destruct s; [done|]. unfold SFltb, SFcompare in Hhi. simpl.
  apply Z.leb_le. destruct (Z.compare_spec e (-44)); [lia|lia|done].
Qed.

Lemma float_add_nonneg (a d : float) (md : positive) (ed : Z) :
  below_512 (Prim2SF a) = true →
  Prim2SF d = S754_finite false md ed → (ed ≤ -44)%Z →
  is_nonneg_finite (Prim2SF (a + d)) = true.
Proof.
  intros Ha Hd Hed. rewrite add_spec, Hd.
  pose proof (Prim2SF_valid a) as Hva. pose proof (Prim2SF_valid d) as Hvd.
  rewrite Hd in Hvd.
  destruct (Prim2SF a) as [s|s| |s m e]; try done.
  destruct s; [done|]. apply Z.leb_le in Ha.
  by apply SF64add_small.
Qed.

(** The remainder modulo 360 of a zero or a positive finite float lies in
    [0, 360). *)
Lemma float_rem_360_range (x : float) :
  is_nonneg_finite (Prim2SF x) = true →
  ∃ y, float_rem x 360 = Ok y ∧ angle_in_range y = true.
Proof.
  intros Hx. pose proof (Prim2SF_valid x) as Hvx.
  unfold float_rem. change (360 =? 0)%float with false.
  change (360 <? 0)%float with false. cbn [xorb].
  assert (Hzero : ∀ m, Prim2SF m = S754_zero false →
    ∃ y, (if (m =? 0)%float then Ok zero
          else if (m <? 0)%float then Ok (m + 360)%float else Ok m) = Ok y ∧
         angle_in_range y = true).
  { intros m Hm. exists zero. rewrite FloatAxioms.eqb_spec, Hm. done. }
  unfold fmod.
  change (Prim2SF 360) with (S754_finite false 6333186975989760 (-44)).
  destruct (Prim2SF x) as [s|s| |s mx ex] eqn:Hpx; try done;
    destruct s; try done.
  { by apply Hzero. }
  apply valid_finite_bounds in Hvx as [Hmx Hex].
  set (e0 := Z.min ex (-44)).
  set (X := (Z.pos mx * 2 ^ (ex - e0))%Z).
  set (Y := (6333186975989760 * 2 ^ (-44 - e0))%Z).
  assert (HY : (0 < Y)%Z).
  { apply Z.mul_pos_pos; [lia|]. apply Z.pow_pos_nonneg; lia. }
  pose proof (Z.mod_pos_bound X Y HY) as [Hr0 HrY].
  assert (HrX : (X mod Y ≤ X)%Z).
  { apply Z.mod_le; [|done]. apply Z.mul_nonneg_nonneg; [lia|].
    apply Z.pow_nonneg. lia. }
  cbn [cond_Zopp]. destruct (X mod Y)%Z as [|r|r] eqn:Hr; [|clear Hr0|lia].
  { apply Hzero. reflexivity. }
  assert (Hr53 : (Z.pos r < 2 ^ 53)%Z).
  { destruct (Z.le_gt_cases (-44) ex).
    - unfold Y in HrY. replace (-44 - e0)%Z with 0%Z in HrY by lia. lia.
    - unfold X in HrX. replace (ex - e0)%Z with 0%Z in HrX by lia. lia. }
  cbn [binary_normalize].
  destruct (binary_round_exact r e0 Hr53 ltac:(lia))
    as (mz & ez & -> & Hvalid & Hez & Hmz).
  set (m := SF2Prim (S754_finite false mz ez)).
  assert (Hm : Prim2SF m = S754_finite false mz ez)
    by (apply Prim2SF_SF2Prim; exact Hvalid).
  exists m.
  rewrite FloatAxioms.eqb_spec, FloatAxioms.ltb_spec, Hm.
  change (Prim2SF 0) with (S754_zero false). split; [reflexivity|].
  unfold angle_in_range.
  rewrite FloatAxioms.leb_spec, FloatAxioms.ltb_spec, Hm.
  change (Prim2SF 0) with (S754_zero false).
  change (Prim2SF 360) with (S754_finite false 6333186975989760 (-44)).
  apply andb_true_intro. split; [reflexivity|].
  apply SFltb_pos_pos.
  destruct (Z.eq_dec ez (-44)%Z) as [Heq|Hne]; [right|left; lia].
  split; [done|].
  rewrite (Hmz ltac:(lia)).
  unfold Y in HrY. replace (-44 - e0)%Z with 0%Z in HrY by lia.
  rewrite Z.pow_0_r, Z.mul_1_r in HrY. exact HrY.
Qed.

(** [GM] divided by a finite nonzero float is not zero, and is positive when
    the divisor is. *)
Lemma GM_div_finite (q : float) (s : bool) (m : positive) (e : Z) :
  Prim2SF q = S754_finite s m e →
  (GM / q =? 0)%float = false ∧ (s = false → (0 <? GM / q)%float = true).
Proof.
  intros Hq. pose proof (Prim2SF_valid q) as Hv. rewrite Hq in Hv.
  pose proof (SF64div_GM_nonzero s m e Hv) as Hnz.
  rewrite FloatAxioms.eqb_spec, FloatAxioms.ltb_spec, div_spec, Hq.
  change (Prim2SF 0) with (S754_zero false).
  destruct (SF64div (Prim2SF GM) (S754_finite s m e)) as [|s'|  |s' m' e'];
    try discriminate Hnz; simpl in Hnz;
    (split; [by destruct s'|intros ->; by destruct s']).
Qed.

(** ** Division by zero in a tick *)

Lemma float_of_int_raise (z : Z) e :
  float_of_int z = Raise e → e = OverflowError.
Proof.
  unfold float_of_int. destruct (is_infinity _); congruence.
Qed.

Lemma as_float_raise (v : pyval) e :
  as_float v = Raise e → e ≠ ZeroDivisionError.
Proof.
  destruct v as [|z|f|s]; simpl; try congruence.
  intros H%float_of_int_raise. congruence.
Qed.

Lemma float_sq_raise rt (x : float) e :
  float_sq rt x = Raise e → e = OverflowError.
Proof.
  unfold float_sq.
  repeat match goal with |- context [if ?b then _ else _] => destruct b end;
    congruence.
Qed.

(** After the division by the radius, the angular update cannot divide by
    zero: the modulus is the constant 360. *)
Lemma angle_update_no_zero_division (tm : store) (omega : float) :
  (angle ← as_float (dict_get tm "angle" (PInt 0));
   angle' ← float_rem (angle + omega * (180 / math_pi)) 360;
   Ok (<["angle" := PFloat angle']> tm)) ≠ Raise ZeroDivisionError.
Proof.
  destruct (as_float (dict_get tm "angle" (PInt 0))) as [angle|e] eqn:Ha;
    cbn [mbind result_bind].
  - destruct (float_rem_360 (angle + omega * (180 / math_pi))) as [y ->].
    discriminate.
  - apply as_float_raise in Ha. congruence.
Qed.

(** The angular update divides by zero exactly when the radius it reads is
    a zero. *)
Lemma angular_motion_zero_division speed (tm : store) :
  Sim.angular_motion speed tm = Raise ZeroDivisionError ↔
  ∃ v r, tm !! "radius" = Some v ∧ as_float v = Ok r ∧ (r =? 0)%float = true.
Proof.
  unfold Sim.angular_motion, getitem.
  destruct (tm !! "radius") as [v|]; cbn [mbind result_bind].
  - destruct (as_float v) as [r|e] eqn:Hv; cbn [mbind result_bind].
    + unfold float_div. destruct (r =? 0)%float eqn:Hr; cbn [mbind result_bind].
      * split; [|done]. intros _. by exists v, r.
      * split.
        -- intros H. by apply angle_update_no_zero_division in H.
        -- intros (v' & r' & [= <-] & Hv' & Hr'). congruence.
    + split.
      * intros [= ->]. by apply as_float_raise in Hv.
      * intros (v' & r' & [= <-] & Hv' & _). congruence.
  - split; [discriminate|]. by intros (v & r & ? & _).
Qed.

(** C9 (amended): the angular update divides the speed by the stored radius
    unconditionally.  When [speed > 0] fails (speed zero or not a number)
    the radius is not recomputed and the tick raises a division by zero
    exactly when the stored radius is a zero.  When [speed > 0] the tick
    raises a division by zero exactly when [speed ** 2] is zero (the square
    underflows) or the radius [GM / speed ** 2] is zero; when [speed ** 2]
    is a positive finite float that radius is strictly positive and the
    tick raises no division by zero. *)
Theorem C9_zero_division rt (tm tm1 : store) (speed : float) :
  Sim.burn_integration rt tm = Ok tm1 →
  Sim.speed_of rt tm1 = Ok speed →
  (Sim.propagate rt tm = Raise ZeroDivisionError ↔
   divides_by_zero rt tm1 speed) ∧
  ∀ sq m e,
    (0 <? speed)%float = true →
    float_sq rt speed = Ok sq →
    Prim2SF sq = S754_finite false m e →
    (0 <? GM / sq)%float = true ∧
    Sim.propagate rt tm ≠ Raise ZeroDivisionError.
Proof.
  intros Hb Hs.
  assert (Hiff : Sim.propagate rt tm = Raise ZeroDivisionError ↔
                 divides_by_zero rt tm1 speed).
  { unfold Sim.propagate, divides_by_zero.
    rewrite Hb. cbn [mbind result_bind]. rewrite Hs. cbn [mbind result_bind].
    unfold Sim.orbital_dynamics.
    destruct (0 <? speed)%float; cbn [mbind result_bind];
      [|apply angular_motion_zero_division].
    destruct (float_sq rt speed) as [sq|e] eqn:Hsq; cbn [mbind result_bind].
    - unfold float_div at 1.
      destruct (sq =? 0)%float eqn:Hz; cbn [mbind result_bind].
      + split; [|done]. intros _. exists sq. auto.
      + rewrite earth_radius_float. cbn [mbind result_bind].
        rewrite angular_motion_zero_division. store_lookup. split.
        * intros (v & r & [= <-] & [= <-] & Hr). exists sq. auto.
        * intros (sq' & [= <-] & [Hsq'|Hr]); [congruence|].
          by exists (PFloat (GM / sq)), (GM / sq)%float.
    - split.
      + intros [= ->]. apply float_sq_raise in Hsq. discriminate.
      + by intros (sq & ? & _). }
  split; [exact Hiff|].
  intros sq m e Hpos Hsq Hfin.
  destruct (GM_div_finite sq false m e Hfin) as [Hnz Hgt].
  split; [by apply Hgt|].
  rewrite Hiff. unfold divides_by_zero. rewrite Hpos, Hsq.
  intros (sq' & [= <-] & [Hz|Hz]); [|congruence].
  rewrite FloatAxioms.eqb_spec, Hfin in Hz. discriminate Hz.
Qed.

(** C9, as stated, fails: a command can leave a speed that is positive but
    so small that its square underflows to zero; the guard [speed > 0]
    passes, the stored radius is not zero, and [GM / speed ** 2] divides by
    zero. *)
Lemma C9_underflow_divides_by_zero :
  telemetry_file
    (App.send_command ref_runtime "t0"
       (request (PFloat (-7.5)) (PFloat 1e-200) (PInt 1)) boot).2
    = Some stalling_burn ∧
  (tm1 ← Sim.burn_integration ref_runtime stalling_burn;
   Sim.speed_of ref_runtime tm1) = Ok 1e-200%float ∧
  (0 <? 1e-200)%float = true ∧
  (1e-200 =? 0)%float = false ∧
  peek (Sim.burn_integration ref_runtime stalling_burn) "radius"
    = Ok (Some (PInt 6871)) ∧
  float_sq ref_runtime 1e-200 = Ok 0%float ∧
  Sim.propagate ref_runtime stalling_burn = Raise ZeroDivisionError.
Proof.
  split.
  { destruct (send_command_accepted ref_runtime "t0"
                (request (PFloat (-7.5)) (PFloat 1e-200) (PInt 1)) boot
                App.initial (-7.5) 1e-200 1)
      as (d & Hd & ->); [vm_compute; reflexivity | lia | reflexivity |].
    injection Hd as <-. reflexivity. }
  repeat split; vm_compute; reflexivity.
Qed.

Lemma C9_witness :
  Sim.burn_integration ref_runtime crawling = Ok crawling ∧
  Sim.speed_of ref_runtime crawling = Ok 1e-200%float ∧
  (Sim.propagate ref_runtime crawling = Raise ZeroDivisionError ↔
   divides_by_zero ref_runtime crawling 1e-200) ∧
  ∀ sq m e,
    (0 <? 1e-200)%float = true →
    float_sq ref_runtime 1e-200 = Ok sq →
    Prim2SF sq = S754_finite false m e →
    (0 <? GM / sq)%float = true ∧
    Sim.propagate ref_runtime crawling ≠ Raise ZeroDivisionError.
Proof.
  assert (Hb : Sim.burn_integration ref_runtime crawling = Ok crawling)
    by (apply burn_integration_idle; reflexivity).
  assert (Hs : Sim.speed_of ref_runtime crawling = Ok 1e-200%float)
    by (vm_compute; reflexivity).
  split; [exact Hb|]. split; [exact Hs|].
  exact (C9_zero_division ref_runtime crawling crawling 1e-200 Hb Hs).
Defined.

(** ** The angle on the bootstrap orbit *)

Lemma cruise_dtheta_small :
  ∃ md ed, Prim2SF cruise_dtheta = S754_finite false md ed ∧ (ed ≤ -44)%Z.
Proof. eexists _, _. split; [vm_compute; reflexivity|lia]. Qed.

(** The angle stays in range when the step of the bootstrap orbit is
    added modulo 360. *)
Lemma cruise_angle_step (a : float) :
  angle_in_range a = true →
  ∃ a', float_rem (a + cruise_dtheta) 360 = Ok a' ∧ angle_in_range a' = true.
Proof.
  intros Ha. destruct cruise_dtheta_small as (md & ed & Hd & Hed).
  apply float_rem_360_range.
  apply (float_add_nonneg a cruise_dtheta md ed); [|done..].
  by apply angle_in_range_below.
Qed.

Lemma cruise_float_sq rt :
  libm_pow rt 7.5 2 = 56.25%float → float_sq rt 7.5 = Ok 56.25%float.
Proof.
  intros Hpow. unfold float_sq.
  change (is_nan 7.5) with false. change (is_infinity 7.5) with false.
  change (7.5 =? 0)%float with false. change (abs 7.5) with 7.5%float.
  change (7.5 =? 1)%float with false. cbv iota. rewrite Hpow. reflexivity.
Qed.

(** A tick on the bootstrap orbit completes and stays on it. *)
Lemma cruising_tick rt (tm : store) :
  math_hypot rt 7.5 0 = Ok 7.5%float →
  libm_pow rt 7.5 2 = 56.25%float →
  cruising tm →
  ∃ tm', Sim.propagate rt tm = Ok tm' ∧ cruising tm'.
Proof.
  intros Hhyp Hpow (Hvx & Hvy & Hbr & a & Ha & Hrange).
  destruct (cruise_angle_step a Hrange) as (a' & Hrem & Hrange').
  exists (<["angle" := PFloat a']>
          (<["altitude" := PFloat (GM / 56.25 - 6371)]>
          (<["radius" := PFloat (GM / 56.25)]> tm))).
  split.
  - unfold Sim.propagate. rewrite (burn_integration_idle rt tm Hbr).
    cbn [mbind result_bind]. unfold Sim.speed_of, getitem.
    rewrite Hvx, Hvy. cbn [mbind result_bind as_float]. rewrite Hhyp.
    cbn [mbind result_bind]. unfold Sim.orbital_dynamics.
    change (0 <? 7.5)%float with true. cbv iota.
    rewrite (cruise_float_sq rt Hpow). cbn [mbind result_bind].
    unfold float_div at 1. change (56.25 =? 0)%float with false. cbv iota.
    cbn [mbind result_bind]. rewrite earth_radius_float.
    cbn [mbind result_bind]. unfold Sim.angular_motion, getitem, dict_get.
    store_lookup. rewrite Ha. simpl default.
    cbn [mbind result_bind as_float].
    unfold float_div. change (GM / 56.25 =? 0)%float with false. cbv iota.
    cbn [mbind result_bind]. fold cruise_dtheta.
    rewrite Hrem. reflexivity.
  - unfold cruising. store_lookup. repeat split; try done. by exists a'.
Qed.

Lemma cruising_ticks rt (n : nat) (tm : store) :
  math_hypot rt 7.5 0 = Ok 7.5%float →
  libm_pow rt 7.5 2 = 56.25%float →
  cruising tm →
  ∃ tm', Sim.ticks rt n tm = Ok tm' ∧ cruising tm'.
Proof.
  intros Hhyp Hpow. revert tm. induction n as [|n IH]; intros tm Hc.
  - by exists tm.
  - destruct (cruising_tick rt tm Hhyp Hpow Hc) as (tm1 & Hp & Hc1).
    destruct (IH tm1 Hc1) as (tm' & Ht & Hc').
    exists tm'. split; [|done]. rewrite ticks_S, Hp. exact Ht.
Qed.

Lemma cruising_initial : cruising App.initial.
Proof. repeat split. by exists 0%float. Qed.

(** C4: on a runtime whose hypotenuse and power are exact on the bootstrap
    velocity, any number of ticks from the bootstrap document complete, and
    the stored angle [a] satisfies [0 <= a < 360]. *)
Theorem C4_angle_range rt (n : nat) :
  math_hypot rt 7.5 0 = Ok 7.5%float →
  libm_pow rt 7.5 2 = 56.25%float →
  ∃ tm a,
    Sim.ticks rt n App.initial = Ok tm ∧
    tm !! "angle" = Some (PFloat a) ∧
    (0 <=? a)%float = true ∧ (a <? 360)%float = true.
Proof.
  intros Hhyp Hpow.
  destruct (cruising_ticks rt n App.initial Hhyp Hpow cruising_initial)
    as (tm & Ht & _ & _ & _ & a & Ha & Hrange).
  apply andb_prop in Hrange as [Hlo Hhi].
  by exists tm, a.
Qed.

Lemma C4_witness :
  ∃ tm a,
    Sim.ticks ref_runtime 1000 App.initial = Ok tm ∧
    tm !! "angle" = Some (PFloat a) ∧
    (0 <=? a)%float = true ∧ (a <? 360)%float = true.
Proof.
  apply (C4_angle_range ref_runtime 1000); reflexivity.
Defined.

(** * Further properties *)

(** ** The command handler: rejections, the log and the acknowledgment *)

Lemma py_float_raise rt (v : pyval) e :
  App.py_float rt v = Raise e →
  e = TypeError ∨ e = ValueError ∨ e = OverflowError.
Proof.
  destruct v as [|z|f|s]; simpl.
  - intros [= <-]. auto.
  - intros H%float_of_int_raise. auto.
  - discriminate.
  - destruct (float_of_str rt s); [discriminate|]. intros [= <-]. auto.
Qed.

Lemma py_int_raise rt (v : pyval) e :
  App.py_int rt v = Raise e →
  e = TypeError ∨ e = ValueError ∨ e = OverflowError.
Proof.
  destruct v as [|z|f|s]; simpl.
  - intros [= <-]. auto.
  - discriminate.
  - unfold App.int_of_float. destruct (Prim2SF f); intros [= <-]; auto.
  - destruct (int_of_str rt s); [discriminate|]. intros [= <-]. auto.
Qed.

Lemma parse_command_raise rt (data : store) e :
  App.parse_command rt data = Raise e →
  e = TypeError ∨ e = ValueError ∨ e = OverflowError.
Proof.
  unfold App.parse_command.
  destruct (App.py_float rt (dict_get data "dvx" (PInt 0))) as [dvx|e1] eqn:Hx;
    cbn [mbind result_bind];
    [|intros [= <-]; by apply py_float_raise in Hx].
  destruct (App.py_float rt (dict_get data "dvy" (PInt 0))) as [dvy|e2] eqn:Hy;
    cbn [mbind result_bind];
    [|intros [= <-]; by apply py_float_raise in Hy].
  destruct (App.py_int rt (dict_get data "duration" (PInt 0))) as [d|e3] eqn:Hd;
    cbn [mbind result_bind];
    [discriminate|intros [= <-]; by apply py_int_raise in Hd].
Qed.

(** X1: a request whose fields do not convert is answered according to the
    first conversion that fails: the input error with status 400 for a
    [TypeError] or a [ValueError], and an exception that escapes the handler
    for an [OverflowError], the only other exception a conversion raises.
    No file changes, whatever the duration and the state of the files. *)
Theorem X1_conversion_failure rt now (data : store) w e :
  App.parse_command rt data = Raise e →
  (e = TypeError ∨ e = ValueError ∨ e = OverflowError) ∧
  App.send_command rt now data w =
    (match e with
     | OverflowError => App.Unhandled OverflowError
     | _ => App.Json 400 "ERROR: Invalid input" None
     end, w).
Proof.
  intros Hp. pose proof (parse_command_raise rt data e Hp) as He.
  split; [exact He|]. unfold App.send_command. rewrite Hp.
  destruct He as [->|[->| ->]]; reflexivity.
Qed.

Lemma X1_witness :
  App.parse_command ref_runtime
    (request PNone (PFloat 0) (PInt 100)) = Raise TypeError ∧
  App.send_command ref_runtime "t0"
    (request PNone (PFloat 0) (PInt 100)) boot
    = (App.Json 400 "ERROR: Invalid input" None, boot) ∧
  App.send_command ref_runtime "t0"
    (request (PInt (2 ^ 1024)) (PFloat 0) (PInt 10)) boot
    = (App.Unhandled OverflowError, boot).
Proof.
  assert (H1 : App.parse_command ref_runtime
                 (request PNone (PFloat 0) (PInt 100)) = Raise TypeError)
    by (vm_compute; reflexivity).
  assert (H2 : App.parse_command ref_runtime
                 (request (PInt (2 ^ 1024)) (PFloat 0) (PInt 10))
               = Raise OverflowError)
    by (vm_compute; reflexivity).
  split; [exact H1|]. split.
  - exact (proj2 (X1_conversion_failure ref_runtime "t0" _ boot _ H1)).
  - exact (proj2 (X1_conversion_failure ref_runtime "t0" _ boot _ H2)).
Defined.

(** X2: a valid command on a telemetry file that cannot be read is
    answered with the store error and status 500; nothing is written and
    nothing is logged. *)
Theorem X2_store_unavailable rt now (data : store) w dvx dvy duration :
  App.parse_command rt data = Ok (dvx, dvy, duration) →
  (1 ≤ duration ≤ 60)%Z →
  telemetry_file w = None →
  App.send_command rt now data w =
    (App.Json 500 "ERROR: Could not read telemetry" None, w).
Proof.
  intros Hp Hd Htm. unfold App.send_command.
  rewrite Hp, (in_range_test _ Hd), Htm. reflexivity.
Qed.

Lemma X2_witness :
  App.send_command ref_runtime "t0" (request (PFloat 1) (PInt 0) (PInt 10))
    (World Unopenable [] true None FeedWritten)
  = (App.Json 500 "ERROR: Could not read telemetry" None,
     World Unopenable [] true None FeedWritten).
Proof.
  apply (X2_store_unavailable ref_runtime "t0" _ _ 1 0 10);
    [vm_compute; reflexivity | lia | reflexivity].
Defined.

(** The outcomes of a command, case by case. *)
Lemma send_command_cases rt now (data : store) w :
  (App.send_command rt now data w).2 = w ∧
    is_ack (App.send_command rt now data w).1 = false ∨
  ∃ dvx dvy duration tm tm',
    App.parse_command rt data = Ok (dvx, dvy, duration) ∧
    (1 ≤ duration ≤ 60)%Z ∧
    telemetry_file w = Some tm ∧
    App.schedule_burn dvx dvy duration tm = Ok tm' ∧
    App.send_command rt now data w =
      if log_appendable w then
        (App.Json 200 "Burn scheduled" (Some tm'),
         append_log (AuditRecord now dvx dvy duration) (set_telemetry tm' w))
      else (App.Unhandled OSError, set_telemetry tm' w).
Proof.
  unfold App.send_command.
  destruct (App.parse_command rt data) as [[[dvx dvy] duration]|e] eqn:Hp;
    [|left; by destruct e].
  destruct ((duration <? 1) || (MAX_DUR <? duration))%Z eqn:Hrange;
    [by left|].
  apply orb_false_iff in Hrange as [Hlo Hhi].
  apply Z.ltb_ge in Hlo, Hhi. unfold MAX_DUR in Hhi.
  destruct (telemetry_file w) as [tm|] eqn:Htm; [|by left].
  destruct (App.schedule_burn dvx dvy duration tm) as [tm'|e] eqn:Hs;
    [|by left].
  right. exists dvx, dvy, duration, tm, tm'. repeat split; try done.
Qed.

(** X3: the command log records exactly the acknowledged commands.  A
    command that is acknowledged appends one record, made of the clock and
    of the parsed [dvx], [dvy] and duration, after the records already
    there; any other command leaves the log as it is.  No command touches
    the angle feed. *)
Theorem X3_log_records_acknowledged rt now (data : store) w :
  (if is_ack (App.send_command rt now data w).1 then
     ∃ dvx dvy duration,
       App.parse_command rt data = Ok (dvx, dvy, duration) ∧
       command_log (App.send_command rt now data w).2
         = command_log w ++ [AuditRecord now dvx dvy duration]
   else
     command_log (App.send_command rt now data w).2 = command_log w) ∧
  angle_feed (App.send_command rt now data w).2 = angle_feed w.
Proof.
  destruct (send_command_cases rt now data w)
    as [[-> ->]|(dvx & dvy & duration & tm & tm' & Hp & _ & _ & _ & ->)];
    [done|].
  destruct (log_appendable w); simpl; [|done].
  split; [|done]. by exists dvx, dvy, duration.
Qed.

(** X4: the document echoed by an acknowledgment is the document stored:
    a telemetry query that follows returns it. *)
Theorem X4_acknowledgment_is_stored rt now (data : store) w (tm : store) :
  (App.send_command rt now data w).1 = App.Json 200 "Burn scheduled" (Some tm) →
  telemetry_file (App.send_command rt now data w).2 = Some tm ∧
  App.get_telemetry (App.send_command rt now data w).2
    = App.Json 200 "" (Some tm).
Proof.
  intros Hack.
  destruct (send_command_cases rt now data w)
    as [[_ Hn]|(dvx & dvy & duration & tm0 & tm' & _ & _ & _ & _ & Hs)].
  - rewrite Hack in Hn. discriminate Hn.
  - rewrite Hs in Hack |- *.
    destruct (log_appendable w); [|discriminate Hack].
    injection Hack as ->. done.
Qed.

Lemma X4_witness :
  ∃ tm,
    (App.send_command ref_runtime "t0"
       (request (PFloat 1) (PInt 0) (PInt 10)) boot).1
      = App.Json 200 "Burn scheduled" (Some tm) ∧
    telemetry_file
      (App.send_command ref_runtime "t0"
         (request (PFloat 1) (PInt 0) (PInt 10)) boot).2 = Some tm ∧
    App.get_telemetry
      (App.send_command ref_runtime "t0"
         (request (PFloat 1) (PInt 0) (PInt 10)) boot).2
      = App.Json 200 "" (Some tm).
Proof.
  destruct (send_command_accepted ref_runtime "t0"
              (request (PFloat 1) (PInt 0) (PInt 10)) boot App.initial 1 0 10)
    as (d & _ & Hs); [vm_compute; reflexivity | lia | reflexivity |].
  cbn zeta in Hs. eexists. split; [rewrite Hs; reflexivity|].
  apply X4_acknowledgment_is_stored. rewrite Hs. reflexivity.
Defined.

Lemma scheduled_overwrites rx ry (d : Z) rx' ry' (d' : Z) (tm : store) :
  scheduled rx ry d (scheduled rx' ry' d' tm) = scheduled rx ry d tm.
Proof.
  apply map_eq. intros k. unfold scheduled.
  rewrite !lookup_insert. repeat case_decide; done.
Qed.

(** X5: the last command wins.  On a readable telemetry file, the document
    stored by an accepted command is the same whether or not another
    command, whatever its outcome, came just before it: nothing of an
    earlier burn is kept, queued or merged. *)
Theorem X5_last_command_wins rt now1 now2 (data1 data2 : store) w (tm : store)
    dvx dvy duration :
  telemetry_file w = Some tm →
  App.parse_command rt data2 = Ok (dvx, dvy, duration) →
  (1 ≤ duration ≤ 60)%Z →
  telemetry_file
    (App.send_command rt now2 data2 (App.send_command rt now1 data1 w).2).2
  = telemetry_file (App.send_command rt now2 data2 w).2.
Proof.
  intros Htm Hp Hd.
  destruct (send_command_accepted rt now2 data2 w tm _ _ _ Hp Hd Htm)
    as (d & Hf & Hs).
  cbn zeta in Hs.
  assert (Hw : telemetry_file (App.send_command rt now2 data2 w).2
               = Some (scheduled (dvx / d) (dvy / d) duration tm)).
  { rewrite Hs. by destruct (log_appendable w). }
  rewrite Hw.
  destruct (send_command_telemetry rt now1 data1 w)
    as [Heq|(rx & ry & d1 & tm0 & _ & Htm0 & Heq)].
  - rewrite Htm in Heq.
    destruct (send_command_accepted rt now2 data2 _ tm _ _ _ Hp Hd Heq)
      as (d' & Hf' & Hs').
    assert (d' = d) as -> by congruence.
    cbn zeta in Hs'. rewrite Hs'.
    destruct (log_appendable (App.send_command rt now1 data1 w).2);
      reflexivity.
  - assert (tm0 = tm) as -> by congruence.
    destruct (send_command_accepted rt now2 data2 _ _ _ _ _ Hp Hd Heq)
      as (d' & Hf' & Hs').
    assert (d' = d) as -> by congruence.
    cbn zeta in Hs'. rewrite Hs', scheduled_overwrites.
    destruct (log_appendable (App.send_command rt now1 data1 w).2);
      reflexivity.
Qed.

Lemma X5_witness :
  telemetry_file
    (App.send_command ref_runtime "t1" (request (PFloat 1) (PInt 0) (PInt 10))
       (App.send_command ref_runtime "t0"
          (request (PFloat 2) (PFloat 3) (PInt 40)) boot).2).2
  = telemetry_file
      (App.send_command ref_runtime "t1"
         (request (PFloat 1) (PInt 0) (PInt 10)) boot).2.
Proof.
  apply (X5_last_command_wins ref_runtime "t0" "t1" _ _ boot App.initial 1 0 10);
    [reflexivity | vm_compute; reflexivity | lia].
Defined.

(** ** The simulator: idle ticks, velocity, failures *)

Lemma burn_integration_inert rt (tm : store) (n : Z) :
  tm !! "burn_remaining" = Some (PInt n) → (n ≤ 0)%Z →
  Sim.burn_integration rt tm = Ok tm.
Proof.
  intros Hbr Hn. unfold Sim.burn_integration, dict_get. rewrite Hbr.
  simpl default. cbn [py_gt0 mbind result_bind].
  by replace (0 <? n)%Z with false by (symmetry; apply Z.ltb_ge; lia).
Qed.

(** X6: a tick without an active burn, the countdown being absent or an
    integer that is not positive, writes [radius], [altitude] and [angle]
    only: velocity and status are kept, and burn fields left with a
    countdown that is not positive are never cleared. *)
Theorem X6_idle_tick_frame rt (tm tm' : store) :
  (tm !! "burn_remaining" = None ∨
   ∃ n, tm !! "burn_remaining" = Some (PInt n) ∧ (n ≤ 0)%Z) →
  Sim.propagate rt tm = Ok tm' →
  ∀ k, k ∉ ["radius"; "altitude"; "angle"] → tm' !! k = tm !! k.
Proof.
  intros Hidle Hp k Hk.
  destruct (propagate_frame rt tm tm' Hp) as (tm1 & Hb & Hframe).
  assert (Hsame : Sim.burn_integration rt tm = Ok tm).
  { destruct Hidle as [Hbr|(n & Hbr & Hn)].
    - by apply burn_integration_idle.
    - by apply (burn_integration_inert rt tm n). }
  rewrite Hsame in Hb. injection Hb as <-.
  apply Hframe; intros ->; apply Hk; rewrite !elem_of_cons; tauto.
Qed.

Lemma X6_witness :
  first_tick !! "vx" = App.initial !! "vx" ∧
  first_tick !! "vy" = App.initial !! "vy" ∧
  first_tick !! "status" = App.initial !! "status".
Proof.
  pose proof (X6_idle_tick_frame ref_runtime App.initial first_tick
                (or_introl eq_refl) first_tick_computed) as Hframe.
  repeat split; apply Hframe; intros Hin;
    rewrite !elem_of_cons, elem_of_nil in Hin;
    destruct Hin as [?|[?|[?|[]]]]; discriminate.
Defined.

(** One tick of an active burn on float velocities and rates. *)
Lemma tick_velocity rt (tm tm' : store) (n : Z) (x rx y ry : float) :
  tm !! "burn_remaining" = Some (PInt n) → (1 ≤ n)%Z →
  tm !! "vx" = Some (PFloat x) → tm !! "burn_rate_x" = Some (PFloat rx) →
  tm !! "vy" = Some (PFloat y) → tm !! "burn_rate_y" = Some (PFloat ry) →
  Sim.propagate rt tm = Ok tm' →
  tm' !! "vx" = Some (PFloat (x + rx)) ∧ tm' !! "vy" = Some (PFloat (y + ry)).
Proof.
  intros Hbr Hn Hvx Hrx Hvy Hry Hp.
  destruct (propagate_frame rt tm tm' Hp) as (tm1 & Hb & Hframe).
  destruct (burn_integration_active rt tm tm1 n Hbr Hn Hb)
    as (vx & rate_x & vx' & vy & rate_y & vy'
        & Hvx' & Hrx' & Hax & Hvy' & Hry' & Hay & ->).
  rewrite Hvx in Hvx'. rewrite Hrx in Hrx'. rewrite Hvy in Hvy'.
  rewrite Hry in Hry'.
  injection Hvx' as <-. injection Hrx' as <-.
  injection Hvy' as <-. injection Hry' as <-.
  injection Hax as <-. injection Hay as <-.
  rewrite !Hframe by discriminate. cbn zeta.
  destruct (n =? 1)%Z; split; store_lookup.
Qed.

(** X7: over a burn of [N] ticks on float velocities and rates, the stored
    velocity is the entry velocity to which the rate has been added [N]
    times, one floating-point addition per tick. *)
Theorem X7_burn_velocity rt (N : nat) (tm tmN : store) (x rx y ry : float) :
  tm !! "burn_remaining" = Some (PInt (Z.of_nat N)) →
  tm !! "vx" = Some (PFloat x) → tm !! "burn_rate_x" = Some (PFloat rx) →
  tm !! "vy" = Some (PFloat y) → tm !! "burn_rate_y" = Some (PFloat ry) →
  Sim.ticks rt N tm = Ok tmN →
  tmN !! "vx" = Some (PFloat (Nat.iter N (λ v, v + rx)%float x)) ∧
  tmN !! "vy" = Some (PFloat (Nat.iter N (λ v, v + ry)%float y)).
Proof.
  revert tm x y. induction N as [|n IH]; intros tm x y Hbr Hvx Hrx Hvy Hry Ht.
  - injection Ht as <-. done.
  - rewrite ticks_S in Ht. apply bind_Ok in Ht as (tm1 & Hp & Ht).
    destruct (tick_velocity rt tm tm1 _ x rx y ry Hbr ltac:(lia)
                Hvx Hrx Hvy Hry Hp) as [Hvx1 Hvy1].
    rewrite !Nat.iter_succ_r.
    destruct n as [|n].
    + injection Ht as <-. done.
    + pose proof (propagate_burn_fields rt tm tm1 _ Hbr ltac:(lia) Hp) as Hf.
      replace (Z.of_nat (S (S n)) =? 1)%Z with false in Hf
        by (symmetry; apply Z.eqb_neq; lia).
      replace (Z.of_nat (S (S n)) - 1)%Z with (Z.of_nat (S n)) in Hf by lia.
      destruct Hf as (Hbr1 & Hrx1 & Hry1 & _).
      apply (IH tm1); try done; congruence.
Qed.

Lemma X7_witness :
  let tmN := value_or ∅ (Sim.ticks ref_runtime 10 ten_second_burn) in
  tmN !! "vx"
    = Some (PFloat (Nat.iter 10 (λ v, v + 1 / 10)%float 7.5%float)) ∧
  tmN !! "vy"
    = Some (PFloat (Nat.iter 10 (λ v, v + 0 / 10)%float 0%float)).
Proof.
  intros tmN.
  apply (X7_burn_velocity ref_runtime 10 ten_second_burn tmN
           7.5%float (1 / 10)%float 0%float (0 / 10)%float);
    [reflexivity..|].
  apply ok_value. vm_compute. reflexivity.
Defined.

Lemma propagate_missing_velocity rt (tm : store) :
  tm !! "burn_remaining" = None →
  tm !! "vx" = None ∨ tm !! "vy" = None →
  Sim.propagate rt tm = Raise KeyError.
Proof.
  intros Hbr Hv. unfold Sim.propagate.
  rewrite (burn_integration_idle rt tm Hbr). cbn [mbind result_bind].
  unfold Sim.speed_of, getitem.
  destruct (tm !! "vx") as [vx|]; [|done].
  destruct Hv as [Hv|Hv]; [done|]. by rewrite Hv.
Qed.

(** X8: on a document without [vx] or [vy], and without a burn, the tick
    raises [KeyError]; the iteration stops the loop and writes neither the
    telemetry file nor the feed. *)
Theorem X8_missing_velocity rt now_ms w (tm : store) :
  telemetry_file w = Some tm →
  tm !! "burn_remaining" = None →
  tm !! "vx" = None ∨ tm !! "vy" = None →
  sim_iteration rt now_ms w = (w, Some KeyError).
Proof.
  intros Htm Hbr Hv. unfold sim_iteration.
  by rewrite Htm, (propagate_missing_velocity rt tm Hbr Hv).
Qed.

Lemma X8_witness :
  sim_iteration ref_runtime 0
    (World (Document (delete "vy" App.initial)) [] true None FeedWritten)
  = (World (Document (delete "vy" App.initial)) [] true None FeedWritten,
     Some KeyError).
Proof.
  apply (X8_missing_velocity ref_runtime 0 _ (delete "vy" App.initial));
    [reflexivity | reflexivity | right; reflexivity].
Defined.

(** An iteration whose tick completes: what is written and how it ends. *)
Lemma sim_iteration_done rt now_ms w (tm tm' : store) a :
  telemetry_file w = Some tm →
  Sim.propagate rt tm = Ok tm' →
  tm' !! "angle" = Some (PFloat a) →
  sim_iteration rt now_ms w =
    (set_telemetry tm'
       (write_feed (Sim.feed_append (default [] (angle_feed w))
                      (Sim.FeedEntry now_ms (PFloat (builtin_round rt a 4))))
                   w),
     match Sim.report tm' with Ok _ => None | Raise e => Some e end).
Proof.
  intros Htm Hp Ha. unfold sim_iteration. rewrite Htm, Hp.
  unfold dict_get. rewrite Ha. simpl.
  by destruct (Sim.report tm').
Qed.

(** X9: a write of the feed that fails does not stop the simulator: the
    result of the tick is saved in the telemetry file, the log keeps its
    content, and the iteration ends as it does when the feed is written.
    The feed keeps its content when the file cannot be opened; when the
    file is opened and the dump fails, the file has been emptied by the
    opening, and the history is lost: the next read of the feed fails. *)
Theorem X9_feed_failure_is_not_fatal rt now_ms w (tm tm' : store) :
  telemetry_file w = Some tm →
  Sim.propagate rt tm = Ok tm' →
  feed_writable w = false →
  telemetry_file (sim_iteration rt now_ms w).1 = Some tm' ∧
  command_log (sim_iteration rt now_ms w).1 = command_log w ∧
  (sim_iteration rt now_ms w).2
    = (sim_iteration rt now_ms (set_feed_write FeedWritten w)).2 ∧
  (feed_write w = FeedOpenFails →
   angle_feed (sim_iteration rt now_ms w).1 = angle_feed w) ∧
  (feed_write w = FeedDumpFails →
   angle_feed (sim_iteration rt now_ms w).1 = None).
Proof.
  intros Htm Hp Hw.
  destruct (propagate_angle rt tm tm' Hp) as [a Ha].
  rewrite (sim_iteration_done rt now_ms w tm tm' a Htm Hp Ha).
  rewrite (sim_iteration_done rt now_ms (set_feed_write FeedWritten w)
             tm tm' a Htm Hp Ha).
  unfold feed_writable in Hw. unfold write_feed.
  destruct (feed_write w); [discriminate Hw| |];
    repeat split; intros; done.
Qed.

Lemma X9_witness :
  let open_fails :=
    World (Document App.initial) [] true (Some []) FeedOpenFails in
  let dump_fails :=
    World (Document App.initial) [] true (Some []) FeedDumpFails in
  (telemetry_file (sim_iteration ref_runtime 0 open_fails).1 = Some first_tick ∧
   angle_feed (sim_iteration ref_runtime 0 open_fails).1 = Some []) ∧
  (telemetry_file (sim_iteration ref_runtime 0 dump_fails).1 = Some first_tick ∧
   angle_feed (sim_iteration ref_runtime 0 dump_fails).1 = None).
Proof.
  intros open_fails dump_fails. split.
  - pose proof (X9_feed_failure_is_not_fatal ref_runtime 0 open_fails
                  App.initial first_tick eq_refl first_tick_computed eq_refl)
      as (Hsaved & _ & _ & Hkept & _).
    split; [exact Hsaved|exact (Hkept eq_refl)].
  - pose proof (X9_feed_failure_is_not_fatal ref_runtime 0 dump_fails
                  App.initial first_tick eq_refl first_tick_computed eq_refl)
      as (Hsaved & _ & _ & _ & Hlost).
    split; [exact Hsaved|exact (Hlost eq_refl)].
Defined.

(** ** The report at the end of an iteration *)

Lemma as_float_number (v : pyval) (f : float) :
  as_float v = Ok f → formats_as_float (Some v) = true.
Proof. destruct v; simpl; try done. by intros ->. Qed.

Lemma speed_of_numbers rt (tm : store) (speed : float) :
  Sim.speed_of rt tm = Ok speed →
  formats_as_float (tm !! "vx") = true ∧ formats_as_float (tm !! "vy") = true.
Proof.
  unfold Sim.speed_of, getitem. intros H.
  destruct (tm !! "vx") as [vx|]; [|discriminate].
  destruct (tm !! "vy") as [vy|]; [|discriminate].
  cbn [mbind result_bind] in H.
  apply bind_Ok in H as (x & Hx & H). apply bind_Ok in H as (y & Hy & _).
  split; [by apply (as_float_number vx x)|by apply (as_float_number vy y)].
Qed.

Lemma report_field_number (tm : store) (k : string) :
  Sim.report_field tm k = Ok () ↔ formats_as_float (tm !! k) = true.
Proof.
  unfold Sim.report_field, getitem.
  destruct (tm !! k) as [[|z|f|s]|]; simpl; try (split; done).
  destruct (float_of_int z); simpl; split; done.
Qed.

(** After a tick that completes only the altitude can make the report
    fail. *)
Lemma report_after_tick rt (tm tm1 tm' : store) (speed : float) :
  Sim.burn_integration rt tm = Ok tm1 →
  Sim.speed_of rt tm1 = Ok speed →
  Sim.propagate rt tm = Ok tm' →
  Sim.report tm' = Ok () ↔ formats_as_float (tm' !! "altitude") = true.
Proof.
  intros Hb Hs Hp.
  destruct (propagate_angle rt tm tm' Hp) as [a Ha].
  destruct (propagate_frame rt tm tm' Hp) as (tm1' & Hb' & Hframe).
  assert (tm1' = tm1) as -> by congruence.
  destruct (speed_of_numbers rt tm1 speed Hs) as [Hvx Hvy].
  rewrite <- (Hframe "vx") in Hvx by discriminate.
  rewrite <- (Hframe "vy") in Hvy by discriminate.
  unfold Sim.report.
  apply report_field_number in Hvx, Hvy.
  assert (Hang : Sim.report_field tm' "angle" = Ok ())
    by (apply report_field_number; by rewrite Ha).
  rewrite Hang, Hvx, Hvy. cbn [mbind result_bind].
  apply report_field_number.
Qed.

Lemma orbital_dynamics_altitude rt (speed : float) (tm tm2 : store) :
  (0 <? speed)%float = true →
  Sim.orbital_dynamics rt speed tm = Ok tm2 →
  formats_as_float (tm2 !! "altitude") = true.
Proof.
  unfold Sim.orbital_dynamics. intros -> H.
  do 3 (apply bind_Ok in H as (? & _ & H)). injection H as <-.
  by rewrite lookup_insert_eq.
Qed.

Lemma propagate_altitude rt (tm tm1 tm' : store) (speed : float) :
  Sim.burn_integration rt tm = Ok tm1 →
  Sim.speed_of rt tm1 = Ok speed →
  Sim.propagate rt tm = Ok tm' →
  (0 <? speed)%float = true →
  formats_as_float (tm' !! "altitude") = true.
Proof.
  intros Hb Hs Hp Hpos. unfold Sim.propagate in Hp.
  rewrite Hb in Hp. cbn [mbind result_bind] in Hp.
  rewrite Hs in Hp. cbn [mbind result_bind] in Hp.
  apply bind_Ok in Hp as (tm2 & Ho & Ha).
  rewrite (angular_motion_frame _ _ _ "altitude" Ha) by discriminate.
  by apply (orbital_dynamics_altitude rt speed tm1).
Qed.

(** X10: the telemetry file is written before the report is printed, so a
    tick that completes is saved even when the report fails.  The report
    fails, and stops the loop, exactly when the altitude cannot be printed
    as a float: it is missing, it is not a number, or it is an integer too
    large for a float.  This cannot happen when the speed is positive, the
    tick having just written the altitude. *)
Theorem X10_report_after_save rt now_ms w (tm tm1 tm' : store) (speed : float) :
  telemetry_file w = Some tm →
  Sim.burn_integration rt tm = Ok tm1 →
  Sim.speed_of rt tm1 = Ok speed →
  Sim.propagate rt tm = Ok tm' →
  telemetry_file (sim_iteration rt now_ms w).1 = Some tm' ∧
  ((sim_iteration rt now_ms w).2 = None ↔
   formats_as_float (tm' !! "altitude") = true) ∧
  ((0 <? speed)%float = true → (sim_iteration rt now_ms w).2 = None).
Proof.
  intros Htm Hb Hs Hp.
  destruct (propagate_angle rt tm tm' Hp) as [a Ha].
  rewrite (sim_iteration_done rt now_ms w tm tm' a Htm Hp Ha).
  pose proof (report_after_tick rt tm tm1 tm' speed Hb Hs Hp) as Hrep.
  split; [reflexivity|]. cbn [fst snd].
  assert (Hiff : match Sim.report tm' with Ok _ => None | Raise e => Some e end
                 = None ↔ formats_as_float (tm' !! "altitude") = true).
  { rewrite <- Hrep. destruct (Sim.report tm') as [[]|e]; split; done. }
  split; [exact Hiff|]. intros Hpos. apply Hiff.
  by apply (propagate_altitude rt tm tm1 tm' speed).
Qed.

Lemma X10_witness :
  telemetry_file (sim_iteration ref_runtime 0 boot).1 = Some first_tick ∧
  ((sim_iteration ref_runtime 0 boot).2 = None ↔
   formats_as_float (first_tick !! "altitude") = true) ∧
  ((0 <? 7.5)%float = true → (sim_iteration ref_runtime 0 boot).2 = None).
Proof.
  apply (X10_report_after_save ref_runtime 0 boot App.initial App.initial
           first_tick 7.5%float).
  - reflexivity.
  - apply burn_integration_idle. reflexivity.
  - vm_compute. reflexivity.
  - exact first_tick_computed.
Defined.

(** At rest the tick keeps the altitude it finds: an integer too large for
    a float is saved, then stops the loop at the report. *)
Lemma stranded_report_overflows :
  let w := World (Document stranded) [] true None FeedWritten in
  telemetry_file (sim_iteration ref_runtime 0 w).1
    = Some (<["angle" := PFloat 0]> stranded) ∧
  (sim_iteration ref_runtime 0 w).2 = Some OverflowError.
Proof. vm_compute. split; reflexivity. Qed.

(** ** The stored angle, in general *)

Lemma angular_motion_inv (speed : float) (tm tm' : store) :
  Sim.angular_motion speed tm = Ok tm' →
  ∃ v r angle a',
    tm !! "radius" = Some v ∧ as_float v = Ok r ∧
    as_float (dict_get tm "angle" (PInt 0)) = Ok angle ∧
    float_rem (angle + speed / r * (180 / math_pi)) 360 = Ok a' ∧
    tm' = <["angle" := PFloat a']> tm.
Proof.
  unfold Sim.angular_motion, getitem. intros H.
  destruct (tm !! "radius") as [v|]; [|discriminate].
  cbn [mbind result_bind] in H.
  apply bind_Ok in H as (r & Hr & H).
  apply bind_Ok in H as (omega & Hom & H).
  apply bind_Ok in H as (angle & Hangle & H).
  apply bind_Ok in H as (a' & Hrem & H).
  injection H as <-.
  unfold float_div in Hom. destruct (r =? 0)%float; [discriminate|].
  injection Hom as <-.
  by exists v, r, angle, a'.
Qed.

Lemma float_rem_360_not_finite (x : float) :
  is_inf_or_nan (Prim2SF x) = true → float_rem x 360 = Ok nan.
Proof.
  intros Hx. unfold float_rem. change (360 =? 0)%float with false.
  change (360 <? 0)%float with false. cbn [xorb].
  assert (Hm : fmod x 360 = nan).
  { unfold fmod.
    change (Prim2SF 360) with (S754_finite false 6333186975989760 (-44)).
    by destruct (Prim2SF x). }
  rewrite Hm. reflexivity.
Qed.

(** X11: every tick that completes stores a float angle, the remainder
    modulo 360 of the sum of the prior angle (0 when the field is missing)
    and of the step [speed / radius * (180 / pi)] for the radius it
    stores.  When that sum is zero or a positive finite number the stored
    angle [a] satisfies [0 <= a < 360]; when the sum is infinite or not a
    number the stored angle is NaN. *)
Theorem X11_stored_angle rt (tm tm1 tm' : store) (speed : float) :
  Sim.burn_integration rt tm = Ok tm1 →
  Sim.speed_of rt tm1 = Ok speed →
  Sim.propagate rt tm = Ok tm' →
  ∃ v r angle a',
    tm' !! "radius" = Some v ∧ as_float v = Ok r ∧
    as_float (dict_get tm "angle" (PInt 0)) = Ok angle ∧
    let sum := (angle + speed / r * (180 / math_pi))%float in
    float_rem sum 360 = Ok a' ∧
    tm' !! "angle" = Some (PFloat a') ∧
    (is_nonneg_finite (Prim2SF sum) = true → angle_in_range a' = true) ∧
    (is_inf_or_nan (Prim2SF sum) = true → a' = nan).
Proof.
  intros Hb Hs Hp.
  destruct (burn_integration_frame rt tm tm1 Hb) as (_ & _ & Han).
  unfold Sim.propagate in Hp. rewrite Hb in Hp. cbn [mbind result_bind] in Hp.
  rewrite Hs in Hp. cbn [mbind result_bind] in Hp.
  apply bind_Ok in Hp as (tm2 & Ho & Ha).
  apply angular_motion_inv in Ha
    as (v & r & angle & a' & Hv & Hr & Hangle & Hrem & ->).
  exists v, r, angle, a'.
  split; [by rewrite lookup_insert_ne|]. split; [done|]. split.
  { unfold dict_get in *.
    assert (Hsame : tm2 !! "angle" = tm1 !! "angle").
    { apply (orbital_dynamics_frame rt speed tm1 tm2 "angle" Ho); discriminate. }
    by rewrite <- Han, <- Hsame. }
  cbn zeta. split; [done|]. split; [apply lookup_insert_eq|]. split.
  - intros Hfin. destruct (float_rem_360_range _ Hfin) as (y & Hy & Hrange).
    congruence.
  - intros Hnf. rewrite (float_rem_360_not_finite _ Hnf) in Hrem. congruence.
Qed.

Lemma racing_tick_ok :
  is_ok (Sim.propagate ref_runtime racing) = true.
Proof. vm_compute. reflexivity. Qed.

Lemma X11_witness :
  let tm' := value_or ∅ (Sim.propagate ref_runtime racing) in
  ∃ v r angle a',
    tm' !! "radius" = Some v ∧ as_float v = Ok r ∧
    as_float (dict_get racing "angle" (PInt 0)) = Ok angle ∧
    let sum := (angle + 1e150 / r * (180 / math_pi))%float in
    float_rem sum 360 = Ok a' ∧
    tm' !! "angle" = Some (PFloat a') ∧
    (is_nonneg_finite (Prim2SF sum) = true → angle_in_range a' = true) ∧
    (is_inf_or_nan (Prim2SF sum) = true → a' = nan).
Proof.
  intros tm'.
  apply (X11_stored_angle ref_runtime racing racing tm' 1e150%float).
  - apply burn_integration_idle. reflexivity.
  - vm_compute. reflexivity.
  - apply ok_value. exact racing_tick_ok.
Defined.

(** A velocity of 1e150 km/s makes the angle step overflow: the tick
    completes and stores NaN as the angle. *)
Lemma racing_angle_is_nan :
  peek (Sim.propagate ref_runtime racing) "angle" = Ok (Some (PFloat nan)).
Proof. vm_compute. reflexivity. Qed.

(** ** The simulator loop on the bootstrap orbit *)

(** A tick on a document with the bootstrap velocity and no burn, whose
    angle, 0 when the field is missing, is in range. *)
Lemma orbit_tick rt (tm : store) (a : float) :
  math_hypot rt 7.5 0 = Ok 7.5%float →
  libm_pow rt 7.5 2 = 56.25%float →
  tm !! "vx" = Some (PFloat 7.5) → tm !! "vy" = Some (PFloat 0) →
  tm !! "burn_remaining" = None →
  as_float (dict_get tm "angle" (PInt 0)) = Ok a →
  angle_in_range a = true →
  ∃ a', angle_in_range a' = true ∧
    Sim.speed_of rt tm = Ok 7.5%float ∧
    Sim.propagate rt tm =
      Ok (<["angle" := PFloat a']>
          (<["altitude" := PFloat (GM / 56.25 - 6371)]>
          (<["radius" := PFloat (GM / 56.25)]> tm))).
Proof.
  intros Hhyp Hpow Hvx Hvy Hbr Ha Hrange.
  destruct (cruise_angle_step a Hrange) as (a' & Hrem & Hrange').
  assert (Hspeed : Sim.speed_of rt tm = Ok 7.5%float).
  { unfold Sim.speed_of, getitem. rewrite Hvx, Hvy.
    cbn [mbind result_bind as_float]. exact Hhyp. }
  exists a'. split; [done|]. split; [done|].
  unfold Sim.propagate. rewrite (burn_integration_idle rt tm Hbr).
  cbn [mbind result_bind]. rewrite Hspeed.
  cbn [mbind result_bind]. unfold Sim.orbital_dynamics.
  change (0 <? 7.5)%float with true. cbv iota.
  rewrite (cruise_float_sq rt Hpow). cbn [mbind result_bind].
  unfold float_div at 1. change (56.25 =? 0)%float with false. cbv iota.
  cbn [mbind result_bind]. rewrite earth_radius_float.
  cbn [mbind result_bind]. unfold Sim.angular_motion, getitem.
  store_lookup. cbn [mbind result_bind as_float].
  unfold float_div. change (GM / 56.25 =? 0)%float with false. cbv iota.
  cbn [mbind result_bind]. fold cruise_dtheta.
  unfold dict_get in *. store_lookup. rewrite Ha.
  cbn [mbind result_bind]. rewrite Hrem. reflexivity.
Qed.

(** An iteration on the bootstrap orbit: it completes, reports and
    continues. *)
Lemma cruising_iteration rt now_ms w (tm : store) :
  math_hypot rt 7.5 0 = Ok 7.5%float →
  libm_pow rt 7.5 2 = 56.25%float →
  telemetry_file w = Some tm →
  cruising tm →
  ∃ tm' a,
    cruising tm' ∧
    sim_iteration rt now_ms w =
      (set_telemetry tm'
         (write_feed (Sim.feed_append (default [] (angle_feed w))
                        (Sim.FeedEntry now_ms (PFloat (builtin_round rt a 4))))
                     w),
       None).
Proof.
  intros Hhyp Hpow Htm Hc.
  destruct (cruising_tick rt tm Hhyp Hpow Hc) as (tm' & Hp & Hc').
  destruct Hc as (Hvx & Hvy & Hbr & _).
  destruct Hc' as (Hvx' & Hvy' & Hbr' & a & Ha & Hrange).
  exists tm', a. split; [unfold cruising; eauto 10|].
  rewrite (sim_iteration_done rt now_ms w tm tm' a Htm Hp Ha).
  assert (Hs : Sim.speed_of rt tm = Ok 7.5%float).
  { unfold Sim.speed_of, getitem. rewrite Hvx, Hvy.
    cbn [mbind result_bind as_float]. exact Hhyp. }
  pose proof (burn_integration_idle rt tm Hbr) as Hb.
  assert (Hrep : Sim.report tm' = Ok ()).
  { apply (report_after_tick rt tm tm tm' 7.5 Hb Hs Hp).
    by apply (propagate_altitude rt tm tm tm' 7.5 Hb Hs Hp). }
  by rewrite Hrep.
Qed.

Lemma feed_append_timestamps (l : list Sim.feed_entry) (e : Sim.feed_entry) :
  Sim.fe_timestamp <$> Sim.feed_append l e
  = Sim.last_1000 ((Sim.fe_timestamp <$> l) ++ [Sim.fe_timestamp e]).
Proof.
  unfold Sim.feed_append, Sim.last_1000.
  by rewrite fmap_drop, fmap_app, !length_app, length_fmap.
Qed.

(** X12: on a runtime whose hypotenuse and power are exact on the bootstrap
    velocity, the simulator loop on the bootstrap orbit never stops: every
    iteration completes, whatever the clock.  The document stays on the
    orbit with its angle in range, the timestamps of the feed are the last
    1000 of the old timestamps followed by the clock readings, in order, and
    the command log is not touched. *)
Theorem X12_loop_on_bootstrap_orbit rt (clock : list Z) w (tm : store) :
  math_hypot rt 7.5 0 = Ok 7.5%float →
  libm_pow rt 7.5 2 = 56.25%float →
  telemetry_file w = Some tm →
  cruising tm →
  feed_writable w = true →
  length (default [] (angle_feed w)) ≤ 1000 →
  ∃ w' tm',
    sim_loop rt clock w = (w', None) ∧
    telemetry_file w' = Some tm' ∧ cruising tm' ∧
    Sim.fe_timestamp <$> default [] (angle_feed w')
      = Sim.last_1000 ((Sim.fe_timestamp <$> default [] (angle_feed w))
                       ++ clock) ∧
    command_log w' = command_log w.
Proof.
  intros Hhyp Hpow. revert w tm.
  induction clock as [|now_ms clock IH]; intros w tm Htm Hc Hw Hlen.
  - exists w, tm. split; [reflexivity|]. split; [done|]. split; [done|].
    split; [|done].
    rewrite app_nil_r. unfold Sim.last_1000. rewrite length_fmap.
    by replace (length (default [] (angle_feed w)) - 1000) with 0 by lia.
  - destruct (cruising_iteration rt now_ms w tm Hhyp Hpow Htm Hc)
      as (tm1 & a & Hc1 & Hit).
    rewrite (write_feed_writable _ w Hw) in Hit. cbn [sim_loop]. rewrite Hit.
    set (feed1 := Sim.feed_append _ _) in *.
    destruct (IH (set_telemetry tm1 (set_feed feed1 w)) tm1)
      as (w' & tm' & Hloop & Htm' & Hc' & Hts & Hlog);
      [reflexivity | done | exact Hw | apply last_1000_length |].
    exists w', tm'. split; [done|]. split; [done|]. split; [done|].
    split; [|done].
    rewrite Hts.
    change (default [] (angle_feed (set_telemetry tm1 (set_feed feed1 w))))
      with feed1.
    unfold feed1.
    rewrite feed_append_timestamps, last_1000_absorb.
    by rewrite <- app_assoc.
Qed.

Lemma X12_witness :
  ∃ w' tm',
    sim_loop ref_runtime [10; 20; 30]%Z boot = (w', None) ∧
    telemetry_file w' = Some tm' ∧ cruising tm' ∧
    Sim.fe_timestamp <$> default [] (angle_feed w')
      = Sim.last_1000 ((Sim.fe_timestamp <$> default [] (angle_feed boot))
                       ++ [10; 20; 30]%Z) ∧
    command_log w' = command_log boot.
Proof.
  apply (X12_loop_on_bootstrap_orbit ref_runtime [10; 20; 30]%Z boot App.initial);
    [reflexivity | reflexivity | reflexivity | apply cruising_initial
    | reflexivity | simpl; lia].
Defined.

(** ** The stand-alone telemetry writer *)

Lemma writer_iteration_float (jitter a : float) (telemetry : store) w :
  telemetry !! "altitude" = Some (PFloat a) →
  Telemetry.iteration jitter telemetry w =
    let telemetry' :=
      <["status" := PStr "Stable"]>
        (<["altitude" := PFloat (a + jitter)]> telemetry) in
    Ok (telemetry', set_telemetry telemetry' w).
Proof.
  intros Ha. unfold Telemetry.iteration, getitem. by rewrite Ha.
Qed.

Lemma writer_iteration_initial (jitter : float) w :
  Telemetry.iteration jitter Telemetry.initial w =
    let telemetry' :=
      <["status" := PStr "Stable"]>
        (<["altitude" := PFloat (500 + jitter)]> Telemetry.initial) in
    Ok (telemetry', set_telemetry telemetry' w).
Proof. reflexivity. Qed.

(** The loop from a dictionary that a first iteration has written. *)
Lemma writer_loop_float (jitters : list float) (a : float) (telemetry : store) w0 w :
  telemetry !! "altitude" = Some (PFloat a) →
  telemetry !! "status" = Some (PStr "Stable") →
  w = set_telemetry telemetry w0 →
  ∃ telemetry',
    Telemetry.loop jitters telemetry w
      = Ok (telemetry', set_telemetry telemetry' w0) ∧
    telemetry' !! "altitude"
      = Some (PFloat (foldl (λ x j, x + j)%float a jitters)) ∧
    telemetry' !! "status" = Some (PStr "Stable") ∧
    dom telemetry' = dom telemetry ∧
    ∀ k, k ≠ "altitude" → telemetry' !! k = telemetry !! k.
Proof.
  revert a telemetry w.
  induction jitters as [|j jitters IH]; intros a telemetry w Ha Hst ->.
  - exists telemetry. by repeat split.
  - cbn [Telemetry.loop]. rewrite (writer_iteration_float j a telemetry _ Ha).
    cbn zeta. cbn [mbind result_bind].
    set (telemetry1 := <["status" := PStr "Stable"]> _).
    destruct (IH (a + j)%float telemetry1
                (set_telemetry telemetry1 (set_telemetry telemetry w0)))
      as (telemetry' & Hloop & Ha' & Hst' & Hdom & Hframe);
      [unfold telemetry1; store_lookup..|reflexivity|].
    exists telemetry'. split; [exact Hloop|]. split; [exact Ha'|].
    split; [exact Hst'|]. split.
    + rewrite Hdom. unfold telemetry1.
      rewrite !dom_insert_lookup_L; [done|by rewrite Ha|].
      rewrite lookup_insert_ne by discriminate. by rewrite Hst.
    + intros k Hk. rewrite (Hframe k Hk). unfold telemetry1.
      destruct (decide (k = "status")) as [->|Hne].
      * by rewrite lookup_insert_eq.
      * by rewrite !lookup_insert_ne.
Qed.

(** What the writer leaves after at least one iteration. *)
Lemma writer_loop_initial (j : float) (jitters : list float) w :
  ∃ telemetry,
    Telemetry.loop (j :: jitters) Telemetry.initial w
      = Ok (telemetry, set_telemetry telemetry w) ∧
    dom telemetry = {[ "vx"; "vy"; "altitude"; "status" ]} ∧
    telemetry !! "vx" = Some (PFloat 7.5) ∧
    telemetry !! "vy" = Some (PFloat 0) ∧
    telemetry !! "status" = Some (PStr "Stable") ∧
    telemetry !! "altitude"
      = Some (PFloat (foldl (λ x j, x + j)%float 500%float (j :: jitters))).
Proof.
  cbn [Telemetry.loop]. rewrite writer_iteration_initial.
  cbn zeta. cbn [mbind result_bind].
  set (telemetry1 := <["status" := PStr "Stable"]> _).
  destruct (writer_loop_float jitters (500 + j)%float telemetry1 w
              (set_telemetry telemetry1 w))
    as (telemetry & Hloop & Ha & Hst & Hdom & Hframe);
    [reflexivity..|].
  exists telemetry. split; [exact Hloop|]. split.
  { rewrite Hdom. vm_compute. reflexivity. }
  rewrite !Hframe by discriminate. repeat split; try done.
Qed.

Lemma writer_document_fields (telemetry : store) :
  dom telemetry = {[ "vx"; "vy"; "altitude"; "status" ]} →
  telemetry !! "burn_remaining" = None ∧ telemetry !! "burn_rate_x" = None ∧
  telemetry !! "burn_rate_y" = None ∧ telemetry !! "angle" = None ∧
  telemetry !! "radius" = None.
Proof.
  intros Hdom.
  repeat split; apply not_elem_of_dom; rewrite Hdom;
    rewrite !elem_of_union, !elem_of_singleton;
    intros [[[?|?]|?]|?]; discriminate.
Qed.

Lemma writer_document_burn_inv (telemetry : store) :
  dom telemetry = {[ "vx"; "vy"; "altitude"; "status" ]} →
  telemetry !! "status" = Some (PStr "Stable") →
  burn_inv telemetry.
Proof.
  intros Hdom Hst.
  destruct (writer_document_fields telemetry Hdom) as (? & ? & ? & _).
  left. auto.
Qed.

(** X13: the updates of the stand-alone writer never raise, and after at
    least one iteration the telemetry file holds its dictionary, whatever
    the file held before: exactly the four fields [vx], [vy], [altitude]
    and [status], with the velocity it started from, the status "Stable",
    and as altitude 500 to which the values drawn have been added in order,
    one floating-point addition each.  A burn scheduled in the file is
    erased, and the burn fields and the status agree. *)
Theorem X13_writer_overwrites (j : float) (jitters : list float) w :
  ∃ telemetry,
    Telemetry.loop (j :: jitters) Telemetry.initial w
      = Ok (telemetry, set_telemetry telemetry w) ∧
    dom telemetry = {[ "vx"; "vy"; "altitude"; "status" ]} ∧
    telemetry !! "vx" = Some (PFloat 7.5) ∧
    telemetry !! "vy" = Some (PFloat 0) ∧
    telemetry !! "status" = Some (PStr "Stable") ∧
    telemetry !! "altitude"
      = Some (PFloat (foldl (λ x j, x + j)%float 500%float (j :: jitters))) ∧
    burn_fields_agree telemetry.
Proof.
  destruct (writer_loop_initial j jitters w)
    as (telemetry & Hloop & Hdom & Hvx & Hvy & Hst & Ha).
  exists telemetry. repeat (split; [done|]).
  by apply burn_inv_agree, writer_document_burn_inv.
Qed.

(** X14: the simulator recovers from the writer.  On a runtime whose
    hypotenuse and power are exact on the bootstrap velocity, an iteration
    of the simulator on the four-field document of the writer completes and
    continues although the document has neither radius nor angle: the
    radius and the altitude are recomputed from the speed, the jittered
    altitude being overwritten, the angle starts from 0 and is in range, and
    the status "Stable" is kept. *)
Theorem X14_simulator_after_writer rt now_ms (j : float) (jitters : list float) w :
  math_hypot rt 7.5 0 = Ok 7.5%float →
  libm_pow rt 7.5 2 = 56.25%float →
  ∃ telemetry tm',
    Telemetry.loop (j :: jitters) Telemetry.initial w
      = Ok (telemetry, set_telemetry telemetry w) ∧
    (sim_iteration rt now_ms (set_telemetry telemetry w)).2 = None ∧
    telemetry_file (sim_iteration rt now_ms (set_telemetry telemetry w)).1
      = Some tm' ∧
    cruising tm' ∧
    tm' !! "radius" = Some (PFloat (GM / 56.25)) ∧
    tm' !! "altitude" = Some (PFloat (GM / 56.25 - 6371)) ∧
    tm' !! "status" = Some (PStr "Stable").
Proof.
  intros Hhyp Hpow.
  destruct (writer_loop_initial j jitters w)
    as (telemetry & Hloop & Hdom & Hvx & Hvy & Hst & _).
  destruct (writer_document_fields telemetry Hdom) as (Hbr & _ & _ & Hang & _).
  assert (Hzero : as_float (dict_get telemetry "angle" (PInt 0)) = Ok 0%float).
  { unfold dict_get. rewrite Hang. vm_compute. reflexivity. }
  destruct (orbit_tick rt telemetry 0 Hhyp Hpow Hvx Hvy Hbr Hzero eq_refl)
    as (a' & Hrange & Hs & Hp).
  set (tm' := <["angle" := PFloat a']> _) in Hp.
  exists telemetry, tm'. split; [exact Hloop|].
  pose proof (burn_integration_idle rt telemetry Hbr) as Hb.
  assert (Hrep : Sim.report tm' = Ok ()).
  { apply (report_after_tick rt telemetry telemetry tm' 7.5 Hb Hs Hp).
    by apply (propagate_altitude rt telemetry telemetry tm' 7.5 Hb Hs Hp). }
  rewrite (sim_iteration_done rt now_ms (set_telemetry telemetry w)
             telemetry tm' a' eq_refl Hp ltac:(apply lookup_insert_eq)).
  rewrite Hrep. split; [reflexivity|]. split; [reflexivity|].
  unfold cruising, tm'. store_lookup.
  repeat split; try done. by exists a'.
Qed.

Lemma X14_witness :
  ∃ telemetry tm',
    Telemetry.loop [0.005; -0.01]%float Telemetry.initial boot
      = Ok (telemetry, set_telemetry telemetry boot) ∧
    (sim_iteration ref_runtime 0 (set_telemetry telemetry boot)).2 = None ∧
    telemetry_file (sim_iteration ref_runtime 0 (set_telemetry telemetry boot)).1
      = Some tm' ∧
    cruising tm' ∧
    tm' !! "radius" = Some (PFloat (GM / 56.25)) ∧
    tm' !! "altitude" = Some (PFloat (GM / 56.25 - 6371)) ∧
    tm' !! "status" = Some (PStr "Stable").
Proof.
  apply (X14_simulator_after_writer ref_runtime 0 0.005 [(-0.01)%float] boot);
    reflexivity.
Defined.

(** ** The presence invariant with the three programs *)

Lemma writer_loop_telemetry (jitters : list float) w r :
  Telemetry.loop jitters Telemetry.initial w = Ok r →
  r.2 = w ∨ ∃ telemetry, telemetry_file r.2 = Some telemetry ∧ burn_inv telemetry.
Proof.
  destruct jitters as [|j jitters].
  - intros [= <-]. by left.
  - destruct (writer_loop_initial j jitters w)
      as (telemetry & Hloop & Hdom & _ & _ & Hst & _).
    rewrite Hloop. intros [= <-]. right. exists telemetry.
    split; [reflexivity|]. by apply writer_document_burn_inv.
Qed.

Lemma reachable_all_burn_inv rt w :
  reachable_all rt w → ∃ tm, telemetry_file w = Some tm ∧ burn_inv tm.
Proof.
  induction 1 as [w Hw|now data w _ (tm & Htm & Hinv)
                 |now_ms w _ (tm & Htm & Hinv)
                 |jitters w r _ (tm & Htm & Hinv) Hloop].
  - exists App.initial. split; [done|apply burn_inv_initial].
  - destruct (send_command_telemetry rt now data w)
      as [Heq|(rx & ry & d & tm0 & Hd & _ & Heq)]; rewrite Heq.
    + by exists tm.
    + eexists. split; [done|]. by apply burn_inv_scheduled.
  - destruct (sim_iteration_telemetry rt now_ms w)
      as [Heq|(tm0 & tm' & Htm0 & Hp & Heq)]; rewrite Heq.
    + by exists tm.
    + exists tm'. split; [done|].
      apply (burn_inv_propagate rt tm0); [|done]. congruence.
  - destruct (writer_loop_telemetry jitters w r Hloop) as [->|Hw].
    + by exists tm.
    + exact Hw.
Qed.

(** X15: the presence invariant of the burn fields survives the
    stand-alone writer.  In every state of the telemetry file reached from
    the bootstrap document by commands, simulator iterations and runs of the
    writer, in any order and whatever their outcome, [burn_remaining] is
    present if and only if [burn_rate_x] and [burn_rate_y] are, if and only
    if the status is the "Burning" variant. *)
Theorem X15_invariant_with_writer rt w :
  reachable_all rt w →
  ∃ tm, telemetry_file w = Some tm ∧ burn_fields_agree tm.
Proof.
  intros Hr. destruct (reachable_all_burn_inv rt w Hr) as (tm & Htm & Hinv).
  exists tm. split; [done|]. by apply burn_inv_agree.
Qed.

Lemma X15_witness :
  ∃ tm,
    telemetry_file
      (App.send_command ref_runtime "t0"
         (request (PFloat 1) (PInt 0) (PInt 10))
         (value_or (∅, boot)
            (Telemetry.loop [0.005%float] Telemetry.initial
               (sim_iteration ref_runtime 0 boot).1)).2).2 = Some tm ∧
    burn_fields_agree tm.
Proof.
  apply (X15_invariant_with_writer ref_runtime).
  apply reach_all_command.
  apply (reach_all_writer ref_runtime [0.005%float]
           (sim_iteration ref_runtime 0 boot).1).
  - apply reach_all_tick, reach_all_boot. reflexivity.
  - apply ok_value. reflexivity.
Defined.
